(** * Fleet Telemetry API: the risk evaluator and the latest-window endpoint

    Shallow embedding of [src/api/main.py]:
    - [compute_risk] (lines 43-94), the pure risk scoring over a window of
      readings;
    - [get_latest_telemetry] (lines 156-210), the retrieval endpoint that
      builds the window from the [asset_telemetry] table and scores it.

    Python floats are IEEE 754 binary64 values.  They are modelled by the
    Standard Library's executable specification [spec_float] at precision 53
    and maximal exponent 1024, so every arithmetic step of the source
    (summation, true division, comparison against the band thresholds,
    [round(_, 2)]) is evaluated with its actual rounding.  The repository
    pins no interpreter, and the builtin [sum] adds floats differently before
    and from CPython 3.12; both algorithms are modelled and the results hold
    for either. *)

From Stdlib Require Import ZArith List Bool String Lia Permutation.
From Stdlib Require Import Floats.SpecFloat.
Import ListNotations.

Local Open Scope Z_scope.

(* ===================================================================== *)
(** ** Python values used by the source *)
(* ===================================================================== *)

Module PyFloat.

Definition prec : Z := 53.
Definition emax : Z := 1024.

(** A Python [float]. *)
Definition float : Type := spec_float.

Definition add : float -> float -> float := SFadd prec emax.
Definition div : float -> float -> float := SFdiv prec emax.

(** [x < y]; [x > y] in the source is [ltb y x].  Every comparison with a
    NaN is false. *)
Definition ltb : float -> float -> bool := SFltb.
Definition leb : float -> float -> bool := SFleb.
Definition gtb (x y : float) : bool := ltb y x.

(** [float(n)] for a Python [int], rounded to nearest-even. *)
Definition of_int (n : Z) : float := binary_normalize prec emax n 0 false.

(** An integer as an unrounded numerator or denominator. *)
Definition raw_of_int (n : Z) : float :=
  match n with
  | Z0 => S754_zero false
  | Zpos p => S754_finite false p 0
  | Zneg p => S754_finite true p 0
  end.

(** The float denoted by the decimal literal [n / 10^k], that is the
    binary64 value nearest to it: [decimal 35 1] is the literal [3.5] and
    [decimal 17 2] is [0.17]. *)
Definition decimal (n : Z) (k : Z) : float :=
  div (raw_of_int n) (raw_of_int (10 ^ k)).

Definition is_nan (x : float) : bool :=
  match x with S754_nan => true | _ => false end.

Definition is_finite (x : float) : bool :=
  match x with S754_zero _ | S754_finite _ _ _ => true | _ => false end.

(** A well-formed binary64 value (canonical mantissa and exponent). *)
Definition valid (x : float) : bool := valid_binary prec emax x.

(** Nearest integer to [m * 100 * 2^e], ties to even. *)
Definition scaled_half_even (m : positive) (e : Z) : Z :=
  let q := Zpos m * 100 in
  match e with
  | Zneg p =>
      let d := 2 ^ Zpos p in
      let n := q / d in
      let r := q mod d in
      match 2 * r ?= d with
      | Lt => n
      | Gt => n + 1
      | Eq => if Z.even n then n else n + 1
      end
  | _ => q * 2 ^ e
  end.

(** [round(x, 2)] on a float.  CPython rounds the exact binary value to two
    decimal places (ties to even) and returns the float nearest to that
    decimal; NaN, infinities and zeros round to themselves and a result of
    zero keeps the sign of [x].  The [OverflowError] branch of
    [float.__round__] needs a rounded decimal beyond the float range; with
    two decimal places that cannot happen, every float of magnitude at
    least 2^52 being an integer. *)
Definition round2 (x : float) : float :=
  match x with
  | S754_finite s m e =>
      match scaled_half_even m e with
      | Zpos n => div (S754_finite s n 0) (raw_of_int 100)
      | _ => S754_zero s
      end
  | _ => x
  end.

(** [x - y] and [fabs(x)], used by the compensated [sum]. *)
Definition sub : float -> float -> float := SFsub prec emax.
Definition abs : float -> float := SFabs.

End PyFloat.

Abbreviation float := PyFloat.float.

(** Exceptions the modelled code can raise.  [DatabaseError] stands for
    whatever the database driver raises, with the text [str(e)] gives for
    it; [RequestValidationError] is what the web framework raises, before an
    endpoint's body runs, for a request that violates the constraints
    declared in the endpoint's signature (it answers such a request with
    status 422). *)
Inductive exn : Type :=
| ZeroDivisionError
| HTTPException (status_code : Z) (detail : string)
| RequestValidationError
| DatabaseError (message : string).

(** [str(e)] for an exception caught by the [except Exception as e] of the
    two endpoints.  Their [try] blocks only ever raise a driver error
    (lemmas [latest_body_raises] and [create_body_raises]); the other cases
    are never used. *)
Definition str_of_exn (e : exn) : string :=
  match e with
  | ZeroDivisionError => "float division by zero"
  | HTTPException _ detail => detail
  | RequestValidationError => ""
  | DatabaseError message => message
  end.

(** A computation that returns a value or raises. *)
Definition py (A : Type) : Type := (exn + A)%type.

Definition ret {A : Type} (a : A) : py A := inr a.
Definition raise {A : Type} (e : exn) : py A := inl e.
Definition bind {A B : Type} (c : py A) (k : A -> py B) : py B :=
  match c with
  | inl e => inl e
  | inr a => k a
  end.

Declare Scope py_scope.
Delimit Scope py_scope with py.
Notation "x <- c ;; k" := (bind c (fun x => k))
  (at level 61, c at next level, right associativity) : py_scope.

(** [x / n] with a float numerator and an integer divisor: the divisor is
    converted to a float and the division raises on a zero divisor.  The
    divisors of the source are list lengths, machine-size integers whose
    conversion cannot overflow; a float quotient out of range is an
    infinity, not an exception. *)
Definition truediv_float_int (x : float) (n : Z) : py float :=
  if n =? 0 then raise ZeroDivisionError
  else ret (PyFloat.div x (PyFloat.of_int n)).

(** [a / b] on two integers: the correctly rounded quotient, and
    [ZeroDivisionError] on a zero divisor. *)
Definition truediv_int_int (a b : Z) : py float :=
  if b =? 0 then raise ZeroDivisionError
  else ret (PyFloat.div (PyFloat.raw_of_int a) (PyFloat.raw_of_int b)).

(** The builtin [sum] over floats.  Up to CPython 3.11 the items are added
    left to right; from CPython 3.12 the additions carry a compensation term
    (Neumaier's variant of Kahan summation) that is added at the end. *)
Inductive SumAlgorithm : Type :=
| LeftToRight
| Compensated.

Existing Class SumAlgorithm.

(** [sum(xs)] up to CPython 3.11: the items are added left to right onto
    the start value, the integer [0], which the first float addition turns
    into [0.0]. *)
Definition sum_left_to_right (xs : list float) : float :=
  fold_left PyFloat.add xs (PyFloat.of_int 0).

(** One item of the compensated loop, on the running sum [f_result] and the
    compensation [c]:
    [t = f_result + x;
     if fabs(f_result) >= fabs(x): c += (f_result - t) + x
     else: c += (x - t) + f_result;
     f_result = t]. *)
Definition compensated_step (state : float * float) (x : float)
  : float * float :=
  let '(f_result, c) := state in
  let t := PyFloat.add f_result x in
  let c :=
    if PyFloat.leb (PyFloat.abs x) (PyFloat.abs f_result)
    then PyFloat.add c (PyFloat.add (PyFloat.sub f_result t) x)
    else PyFloat.add c (PyFloat.add (PyFloat.sub x t) f_result) in
  (t, c).

(** The end of the compensated loop:
    [if c and isfinite(c): f_result += c]. *)
Definition compensated_finish (state : float * float) : float :=
  let '(f_result, c) := state in
  match c with
  | S754_finite _ _ _ => PyFloat.add f_result c
  | _ => f_result
  end.

(** [sum(xs)] from CPython 3.12: the first float is added onto the integer
    start value [0] as before; from then on the sum is a float and the
    remaining items go through the compensated loop, starting with
    [c = 0.0]. *)
Definition sum_compensated (xs : list float) : float :=
  match xs with
  | [] => PyFloat.of_int 0
  | x :: rest =>
      compensated_finish
        (fold_left compensated_step rest
           (PyFloat.add (PyFloat.of_int 0) x, S754_zero false))
  end.

Definition sum {alg : SumAlgorithm} (xs : list float) : float :=
  match alg with
  | LeftToRight => sum_left_to_right xs
  | Compensated => sum_compensated xs
  end.

(** [x > n] and [x < n] for a float [x] and an integer literal [n].  Python
    compares the two by exact value; the integer thresholds of the source
    are exactly representable, so that is the comparison with [float(n)]. *)
Definition gt_int (x : float) (n : Z) : bool := PyFloat.gtb x (PyFloat.of_int n).
Definition lt_int (x : float) (n : Z) : bool := PyFloat.ltb x (PyFloat.of_int n).

(** [len(xs)]. *)
Definition len {A : Type} (xs : list A) : Z := Z.of_nat (List.length xs).

(* ===================================================================== *)
(** ** Data model *)
(* ===================================================================== *)

(** One element of [readings]: the dict built by [get_latest_telemetry]
    (lines 188-195), with its six keys as fields.  [recorded_at] is the
    row's timestamp; its ISO rendering plays no part in the scoring. *)
Record Reading : Type := mkReading {
  id : Z;
  asset_id : string;
  temperature_c : float;
  vibration_rms : float;
  pressure_psi : float;
  recorded_at : Z
}.

(** The ["averages"] dict of the assessment (lines 89-93). *)
Record Averages : Type := mkAverages {
  avg_temperature_c : float;
  avg_vibration_rms : float;
  avg_pressure_psi : float
}.

(** The dict returned by [compute_risk] (lines 84-94). *)
Record RiskAssessment : Type := mkRiskAssessment {
  risk_score : float;
  risk_points : Z;
  risk_level : string;
  window_used : Z;
  averages : Averages
}.

(* ===================================================================== *)
(** ** Risk scoring ([compute_risk], lines 43-94) *)
(* ===================================================================== *)

Local Open Scope py_scope.

(** Lines 58-61: the temperature block, applied to the running
    [risk_points]. *)
Definition score_temperature (avg_temp : float) (risk_points : Z) : Z :=
  if gt_int avg_temp 95 then risk_points + 2
  else if gt_int avg_temp 85 then risk_points + 1
  else risk_points.

(** Lines 64-67: the vibration block. *)
Definition score_vibration (avg_vib : float) (risk_points : Z) : Z :=
  if PyFloat.gtb avg_vib (PyFloat.decimal 35 1) then risk_points + 2
  else if PyFloat.gtb avg_vib (PyFloat.decimal 25 1) then risk_points + 1
  else risk_points.

(** Lines 70-73: the pressure block. *)
Definition score_pressure (avg_pressure : float) (risk_points : Z) : Z :=
  if lt_int avg_pressure 30 || gt_int avg_pressure 60 then risk_points + 2
  else if lt_int avg_pressure 35 || gt_int avg_pressure 55 then risk_points + 1
  else risk_points.

(** Lines 77-82. *)
Definition level_of_points (risk_points : Z) : string :=
  if risk_points <=? 2 then "LOW"%string
  else if risk_points <=? 4 then "MEDIUM"%string
  else "HIGH"%string.

(** The three means of lines 50-52, each [sum(...) / len(readings)]. *)
Definition mean {alg : SumAlgorithm} (metric : Reading -> float)
    (readings : list Reading) : py float :=
  truediv_float_int (sum (map metric readings)) (len readings).

Definition compute_risk {alg : SumAlgorithm} (readings : list Reading)
  : py (option RiskAssessment) :=
  match readings with
  | [] => ret None
  | _ :: _ =>
      avg_temp <- mean temperature_c readings ;;
      avg_vib <- mean vibration_rms readings ;;
      avg_pressure <- mean pressure_psi readings ;;
      let risk_points := 0 in
      let max_points := 6 in
      let risk_points := score_temperature avg_temp risk_points in
      let risk_points := score_vibration avg_vib risk_points in
      let risk_points := score_pressure avg_pressure risk_points in
      q <- truediv_int_int risk_points max_points ;;
      let risk_score := PyFloat.round2 q in
      let risk_level := level_of_points risk_points in
      ret (Some {|
        risk_score := risk_score;
        risk_points := risk_points;
        risk_level := risk_level;
        window_used := len readings;
        averages := {|
          avg_temperature_c := PyFloat.round2 avg_temp;
          avg_vibration_rms := PyFloat.round2 avg_vib;
          avg_pressure_psi := PyFloat.round2 avg_pressure
        |}
      |})
  end.

(** The unrounded mean of a metric over a non-empty window, as the source
    computes it: the float [sum] divided by [float(len)]. *)
Definition average {alg : SumAlgorithm} (metric : Reading -> float)
    (readings : list Reading) : float :=
  PyFloat.div (sum (map metric readings)) (PyFloat.of_int (len readings)).

(** [risk_points] after the three blocks of lines 54-73, as a function of
    the three values the blocks compare. *)
Definition points_of (avg_temp avg_vib avg_pressure : float) : Z :=
  score_pressure avg_pressure
    (score_vibration avg_vib (score_temperature avg_temp 0)).

(** Line 75 alone: [round(risk_points / max_points, 2)]. *)
Definition score_of_points (risk_points : Z) : py float :=
  q <- truediv_int_int risk_points 6 ;;
  ret (PyFloat.round2 q).

(** The value [compute_risk] builds for a non-empty window. *)
Definition assessment {alg : SumAlgorithm} (readings : list Reading)
  : RiskAssessment :=
  let t := average temperature_c readings in
  let v := average vibration_rms readings in
  let p := average pressure_psi readings in
  {| risk_score :=
       PyFloat.round2
         (PyFloat.div (PyFloat.raw_of_int (points_of t v p))
                      (PyFloat.raw_of_int 6));
     risk_points := points_of t v p;
     risk_level := level_of_points (points_of t v p);
     window_used := len readings;
     averages := {| avg_temperature_c := PyFloat.round2 t;
                    avg_vibration_rms := PyFloat.round2 v;
                    avg_pressure_psi := PyFloat.round2 p |} |}.

(** Two readings carry the same three measurements. *)
Definition same_metrics (r r' : Reading) : Prop :=
  temperature_c r = temperature_c r' /\
  vibration_rms r = vibration_rms r' /\
  pressure_psi r = pressure_psi r'.

(** The three measurements of a reading are finite, well-formed binary64
    values (no NaN, no infinity). *)
Definition finite_metric (x : float) : bool :=
  PyFloat.is_finite x && PyFloat.valid x.

Definition finite_reading (r : Reading) : bool :=
  finite_metric (temperature_c r) && finite_metric (vibration_rms r) &&
  finite_metric (pressure_psi r).

(* ===================================================================== *)
(** ** Retrieval endpoint ([get_latest_telemetry], lines 156-210) *)
(* ===================================================================== *)

(** A row of [asset_telemetry] as the [SELECT] of lines 171-175 returns it:
    [(id, asset_id, temperature_c, vibration_rms, pressure_psi,
    recorded_at)]. *)
Record Row : Type := mkRow {
  row_id : Z;
  row_asset_id : string;
  row_temperature_c : float;
  row_vibration_rms : float;
  row_pressure_psi : float;
  row_recorded_at : Z
}.

(** Rows are in descending [recorded_at] order. *)
Fixpoint recorded_at_desc (rows : list Row) : Prop :=
  match rows with
  | [] => True
  | r :: rest =>
      Forall (fun r' => row_recorded_at r' <= row_recorded_at r) rest /\
      recorded_at_desc rest
  end.

(** The store's [ORDER BY recorded_at DESC].  SQL leaves the order among
    rows with equal timestamps to the engine, statement by statement, so a
    call of the endpoint is modelled over any ordering function, and
    reasoned about for those that rearrange the rows into descending order;
    a property that relates two queries lets each have its own ordering. *)
Class OrderBy : Type := {
  order_by_recorded_at_desc : list Row -> list Row
}.

Class OrderByLaws `{OrderBy} : Prop := {
  order_by_permutes :
    forall rows, Permutation rows (order_by_recorded_at_desc rows);
  order_by_sorts :
    forall rows, recorded_at_desc (order_by_recorded_at_desc rows)
}.

(** The query of lines 169-178 over the table's rows. *)
Definition select_latest `{OrderBy} (table : list Row)
    (asset : string) (limit : Z) : list Row :=
  firstn (Z.to_nat limit)
    (order_by_recorded_at_desc
       (filter (fun r => String.eqb (row_asset_id r) asset) table)).

(** Lines 187-196: the dict appended for a row. *)
Definition reading_of_row (r : Row) : Reading := {|
  id := row_id r;
  asset_id := row_asset_id r;
  temperature_c := row_temperature_c r;
  vibration_rms := row_vibration_rms r;
  pressure_psi := row_pressure_psi r;
  recorded_at := row_recorded_at r
|}.

(** The dict returned at lines 200-207. *)
Record LatestResponse : Type := mkLatestResponse {
  resp_asset_id : string;
  resp_window_requested : Z;
  resp_window_used : Z;
  resp_count : Z;
  resp_readings : list Reading;
  resp_risk : option RiskAssessment
}.

(** The store as a request finds it: [get_conn] (lines 26-37) raises
    ([Unreachable]); or the connection is made and [SELECT 1] works but the
    statements on [asset_telemetry] raise ([Failing]: the table is missing,
    access is denied, the statement or its commit fails); or the statements
    run against the table's rows ([Serving]).  The two failures carry the
    text of the driver's exception.  Rows are written by [create_telemetry]
    alone, whose [INSERT] supplies three validated floats and whose id and
    timestamp the store generates, so a stored row holds three floats, an id
    and a timestamp and the conversions of lines 189-194 do not fail. *)
Inductive Store : Type :=
| Unreachable (error : string)
| Failing (error : string)
| Serving (table : list Row).

(** [try: ... except Exception as e:
       raise HTTPException(status_code=500, detail=f"db_read_failed: {str(e)}")]
    (lines 165, 209-210). *)
Definition or_db_read_failed {A : Type} (body : py A) : py A :=
  match body with
  | inl e => raise (HTTPException 500 ("db_read_failed: " ++ str_of_exn e))
  | inr a => ret a
  end.

(** The [try] block of lines 166-207. *)
Definition latest_body {alg : SumAlgorithm} `{OrderBy} (db : Store)
    (asset : string) (limit : Z) : py LatestResponse :=
  rows <- match db with
          | Unreachable error => raise (DatabaseError error)
          | Failing error => raise (DatabaseError error)
          | Serving table => ret (select_latest table asset limit)
          end ;;
  let readings := map reading_of_row rows in
  risk <- compute_risk readings ;;
  ret {|
    resp_asset_id := asset;
    resp_window_requested := limit;
    resp_window_used := len readings;
    resp_count := len readings;
    resp_readings := readings;
    resp_risk := risk
  |}.

(** The endpoint.  A request that violates the [Query] constraints of lines
    158-159 is rejected by the framework before the body runs. *)
Definition get_latest_telemetry {alg : SumAlgorithm} `{OrderBy} (db : Store)
    (asset : string) (limit : Z) : py LatestResponse :=
  if (String.length asset =? 0)%nat || (limit <? 1) || (50 <? limit)
  then raise RequestValidationError
  else or_db_read_failed (latest_body db asset limit).

(** A concrete store ordering: insertion into a descending list, rows with
    equal timestamps keeping their table order. *)
Fixpoint insert_desc (r : Row) (sorted : list Row) : list Row :=
  match sorted with
  | [] => [r]
  | r' :: rest =>
      if row_recorded_at r' <=? row_recorded_at r
      then r :: r' :: rest
      else r' :: insert_desc r rest
  end.

Fixpoint sort_desc (rows : list Row) : list Row :=
  match rows with
  | [] => []
  | r :: rest => insert_desc r (sort_desc rest)
  end.

#[export] Instance insertion_order : OrderBy := {|
  order_by_recorded_at_desc := sort_desc
|}.

(* ===================================================================== *)
(** ** Concrete windows *)
(* ===================================================================== *)

(** A reading of the default asset with the given measurements. *)
Definition sample (t v p : float) : Reading :=
  mkReading 1 "aircraft-C130-017" t v p 0.

(** Temperatures 90, 92, 94 with vibration 1 and pressure 45. *)
Definition window_low : list Reading :=
  [ sample (PyFloat.decimal 900 1) (PyFloat.decimal 10 1) (PyFloat.decimal 450 1);
    sample (PyFloat.decimal 920 1) (PyFloat.decimal 10 1) (PyFloat.decimal 450 1);
    sample (PyFloat.decimal 940 1) (PyFloat.decimal 10 1) (PyFloat.decimal 450 1) ].

(** Every reading at temperature 100, vibration 4.0, pressure 65. *)
Definition window_high : list Reading :=
  [ sample (PyFloat.decimal 1000 1) (PyFloat.decimal 40 1) (PyFloat.decimal 650 1);
    sample (PyFloat.decimal 1000 1) (PyFloat.decimal 40 1) (PyFloat.decimal 650 1) ].

(** One reading whose temperature is exactly 95.0. *)
Definition window_at_95 : list Reading :=
  [ sample (PyFloat.decimal 950 1) (PyFloat.decimal 10 1) (PyFloat.decimal 450 1) ].

(** One reading at temperature 95.004, which the report rounds to 95.0. *)
Definition window_just_above_95 : list Reading :=
  [ sample (PyFloat.decimal 95004 3) (PyFloat.decimal 10 1) (PyFloat.decimal 450 1) ].

(** A table holding two readings of one asset and one of another. *)
Definition table_two_rows : list Row :=
  [ mkRow 1 "aircraft-C130-017" (PyFloat.decimal 900 1) (PyFloat.decimal 10 1)
      (PyFloat.decimal 450 1) 1000;
    mkRow 2 "pump-3" (PyFloat.decimal 1200 1) (PyFloat.decimal 45 1)
      (PyFloat.decimal 200 1) 1005;
    mkRow 3 "aircraft-C130-017" (PyFloat.decimal 920 1) (PyFloat.decimal 10 1)
      (PyFloat.decimal 450 1) 1010 ].

(** The largest finite float, [(2^53 - 1) * 2^971]. *)
Definition max_float : float := S754_finite false (2 ^ 53 - 1) 971.

(** The floats [1e308] and [-1e308]; the largest float is about
    [1.797e308]. *)
Definition huge : float := PyFloat.decimal (10 ^ 308) 0.
Definition neg_huge : float := PyFloat.decimal (- 10 ^ 308) 0.

(** Four readings with temperatures [1e308, 1e308, -1e308, -1e308],
    vibration 3.0 and pressure 45, and the same four readings with the
    temperatures in the order [1e308, -1e308, 1e308, -1e308]. *)
Definition window_overflow : list Reading :=
  [ sample huge (PyFloat.decimal 30 1) (PyFloat.decimal 450 1);
    sample huge (PyFloat.decimal 30 1) (PyFloat.decimal 450 1);
    sample neg_huge (PyFloat.decimal 30 1) (PyFloat.decimal 450 1);
    sample neg_huge (PyFloat.decimal 30 1) (PyFloat.decimal 450 1) ].

Definition window_overflow_reordered : list Reading :=
  [ sample huge (PyFloat.decimal 30 1) (PyFloat.decimal 450 1);
    sample neg_huge (PyFloat.decimal 30 1) (PyFloat.decimal 450 1);
    sample huge (PyFloat.decimal 30 1) (PyFloat.decimal 450 1);
    sample neg_huge (PyFloat.decimal 30 1) (PyFloat.decimal 450 1) ].

(** Three readings with temperatures 86.2, 70.9, 97.9 (vibration 4.0,
    pressure 45), and the same three in the order 70.9, 97.9, 86.2. *)
Definition window_near_85 : list Reading :=
  [ sample (PyFloat.decimal 862 1) (PyFloat.decimal 40 1) (PyFloat.decimal 450 1);
    sample (PyFloat.decimal 709 1) (PyFloat.decimal 40 1) (PyFloat.decimal 450 1);
    sample (PyFloat.decimal 979 1) (PyFloat.decimal 40 1) (PyFloat.decimal 450 1) ].

Definition window_near_85_reordered : list Reading :=
  [ sample (PyFloat.decimal 709 1) (PyFloat.decimal 40 1) (PyFloat.decimal 450 1);
    sample (PyFloat.decimal 979 1) (PyFloat.decimal 40 1) (PyFloat.decimal 450 1);
    sample (PyFloat.decimal 862 1) (PyFloat.decimal 40 1) (PyFloat.decimal 450 1) ].

(** The values of [round(p / 6, 2)] for [p] from 0 to 6:
    0.0, 0.17, 0.33, 0.5, 0.67, 0.83, 1.0. *)
Definition score_values : list float :=
  [ PyFloat.decimal 0 1; PyFloat.decimal 17 2; PyFloat.decimal 33 2;
    PyFloat.decimal 5 1; PyFloat.decimal 67 2; PyFloat.decimal 83 2;
    PyFloat.decimal 10 1 ].

(* ===================================================================== *)
(** ** Ingestion endpoint ([create_telemetry], lines 121-153) *)
(* ===================================================================== *)

(** The request body (lines 16-20). *)
Record TelemetryIn : Type := mkTelemetryIn {
  in_asset_id : string;
  in_temperature_c : float;
  in_vibration_rms : float;
  in_pressure_psi : float
}.

(** The dict returned at line 150. *)
Record CreateResponse : Type := mkCreateResponse {
  created_id : Z;
  created_recorded_at : Z
}.

(** The row the [INSERT] of lines 130-142 adds.  The statement supplies the
    four payload columns; [id] and [recorded_at] are generated by the store
    and come back through [RETURNING], so they are parameters here. *)
Definition inserted_row (payload : TelemetryIn) (new_id new_recorded_at : Z)
  : Row := {|
  row_id := new_id;
  row_asset_id := in_asset_id payload;
  row_temperature_c := in_temperature_c payload;
  row_vibration_rms := in_vibration_rms payload;
  row_pressure_psi := in_pressure_psi payload;
  row_recorded_at := new_recorded_at
|}.

(** [try: ... except Exception as e:
       raise HTTPException(status_code=500, detail=f"db_insert_failed: {str(e)}")]
    (lines 126, 152-153). *)
Definition or_db_insert_failed {A : Type} (body : py A) : py A :=
  match body with
  | inl e => raise (HTTPException 500 ("db_insert_failed: " ++ str_of_exn e))
  | inr a => ret a
  end.

(** The [try] block of lines 127-150, as a step on the store: what it
    returns or raises and the store afterwards.  Nothing is stored unless
    the statement and its commit succeed. *)
Definition create_body (db : Store) (payload : TelemetryIn)
    (new_id new_recorded_at : Z) : py CreateResponse * Store :=
  match db with
  | Unreachable error => (raise (DatabaseError error), db)
  | Failing error => (raise (DatabaseError error), db)
  | Serving table =>
      let row := inserted_row payload new_id new_recorded_at in
      (ret {| created_id := row_id row;
              created_recorded_at := row_recorded_at row |},
       Serving (table ++ [row]))
  end.

(** The endpoint.  [Field(..., min_length=1)] makes the framework reject an
    empty [asset_id] before the body runs. *)
Definition create_telemetry (db : Store) (payload : TelemetryIn)
    (new_id new_recorded_at : Z) : py CreateResponse * Store :=
  if (String.length (in_asset_id payload) =? 0)%nat
  then (raise RequestValidationError, db)
  else
    let '(result, db') := create_body db payload new_id new_recorded_at in
    (or_db_insert_failed result, db').

(* ===================================================================== *)
(** ** Health check ([health], lines 100-118) *)
(* ===================================================================== *)



(** A second store ordering, which breaks ties the other way round:
    rows with equal timestamps come out in reverse table order. *)
#[export] Instance reverse_tie_order : OrderBy := {|
  order_by_recorded_at_desc := fun rows => sort_desc (rev rows)
|}.

(** Three rows of one asset stored at the same instant, with temperatures
    86.2, 70.9, 97.9, vibration 4.0 and pressure 45. *)
Definition table_same_instant : list Row :=
  [ mkRow 1 "aircraft-C130-017" (PyFloat.decimal 862 1) (PyFloat.decimal 40 1)
      (PyFloat.decimal 450 1) 1000;
    mkRow 2 "aircraft-C130-017" (PyFloat.decimal 709 1) (PyFloat.decimal 40 1)
      (PyFloat.decimal 450 1) 1000;
    mkRow 3 "aircraft-C130-017" (PyFloat.decimal 979 1) (PyFloat.decimal 40 1)
      (PyFloat.decimal 450 1) 1000 ].

(** Four rows of one asset stored at the same instant, with temperatures
    [1e308, 1e308, -1e308, -1e308], vibration 3.0 and pressure 45. *)
Definition table_overflow_same_instant : list Row :=
  [ mkRow 1 "aircraft-C130-017" huge (PyFloat.decimal 30 1)
      (PyFloat.decimal 450 1) 1000;
    mkRow 2 "aircraft-C130-017" huge (PyFloat.decimal 30 1)
      (PyFloat.decimal 450 1) 1000;
    mkRow 3 "aircraft-C130-017" neg_huge (PyFloat.decimal 30 1)
      (PyFloat.decimal 450 1) 1000;
    mkRow 4 "aircraft-C130-017" neg_huge (PyFloat.decimal 30 1)
      (PyFloat.decimal 450 1) 1000 ].

(** A window whose second reading has a NaN temperature. *)
Definition window_nan_temperature : list Reading :=
  [ sample (PyFloat.decimal 1200 1) (PyFloat.decimal 40 1) (PyFloat.decimal 650 1);
    sample S754_nan (PyFloat.decimal 40 1) (PyFloat.decimal 650 1) ].

(** One reading with an extreme temperature and the other metrics normal. *)
Definition window_hot_only : list Reading :=
  [ sample (PyFloat.decimal 1500 1) (PyFloat.decimal 10 1) (PyFloat.decimal 450 1) ].

(** A cooler, calmer window and a hotter, rougher one at the same
    pressure. *)
Definition window_cool : list Reading :=
  [ sample (PyFloat.decimal 900 1) (PyFloat.decimal 10 1) (PyFloat.decimal 450 1) ].

Definition window_warm : list Reading :=
  [ sample (PyFloat.decimal 1000 1) (PyFloat.decimal 40 1) (PyFloat.decimal 450 1) ].

(** A window holding [+inf] and [-inf] temperatures. *)
Definition window_opposite_infinities : list Reading :=
  [ sample (S754_infinity false) (PyFloat.decimal 10 1) (PyFloat.decimal 450 1);
    sample (S754_infinity true) (PyFloat.decimal 10 1) (PyFloat.decimal 450 1) ].

(** A request body for the default asset. *)
Definition payload_sample : TelemetryIn :=
  mkTelemetryIn "aircraft-C130-017" (PyFloat.decimal 1000 1)
    (PyFloat.decimal 40 1) (PyFloat.decimal 650 1).

(* ===================================================================== *)
(** ** Basic facts about the embedding *)
(* ===================================================================== *)

Lemma len_cons {A : Type} (x : A) (xs : list A) : len (x :: xs) <> 0.
Proof. unfold len. simpl. lia. Qed.

Lemma len_nonempty {A : Type} (xs : list A) : xs <> [] -> len xs <> 0.
Proof. destruct xs as [|x xs]; [congruence | intros _; apply len_cons]. Qed.

Lemma truediv_float_int_nonzero (x : float) (n : Z) :
  n <> 0 -> truediv_float_int x n = ret (PyFloat.div x (PyFloat.of_int n)).
Proof.
  intros Hn. unfold truediv_float_int.
  destruct (Z.eqb_spec n 0); [contradiction | reflexivity].
Qed.

(** [float(n)] is a positive finite float for every window length the
    endpoint can produce (1 to 50), so on those lengths the divisor seen by
    the float division is zero exactly when the integer is. *)
Lemma of_int_window_lengths :
  forallb (fun n => match PyFloat.of_int (Z.of_nat n) with
                    | S754_finite false _ _ => true
                    | _ => false
                    end) (seq 1 50) = true.
Proof. vm_compute. reflexivity. Qed.

Lemma mean_nonempty {alg : SumAlgorithm}
    (metric : Reading -> float) (readings : list Reading) :
  readings <> [] -> mean metric readings = ret (average metric readings).
Proof.
  intros Hne. unfold mean, average.
  apply truediv_float_int_nonzero, len_nonempty, Hne.
Qed.

Lemma mean_empty {alg : SumAlgorithm} (metric : Reading -> float) :
  mean metric [] = raise ZeroDivisionError.
Proof. reflexivity. Qed.

(** Each block adds its own contribution to whatever was accumulated. *)
Lemma score_temperature_add (avg : float) (rp : Z) :
  score_temperature avg rp = rp + score_temperature avg 0.
Proof.
  unfold score_temperature.
  destruct (gt_int avg 95); [lia|]. destruct (gt_int avg 85); lia.
Qed.

Lemma score_vibration_add (avg : float) (rp : Z) :
  score_vibration avg rp = rp + score_vibration avg 0.
Proof.
  unfold score_vibration.
  destruct (PyFloat.gtb avg (PyFloat.decimal 35 1)); [lia|].
  destruct (PyFloat.gtb avg (PyFloat.decimal 25 1)); lia.
Qed.

Lemma score_pressure_add (avg : float) (rp : Z) :
  score_pressure avg rp = rp + score_pressure avg 0.
Proof.
  unfold score_pressure.
  destruct (lt_int avg 30 || gt_int avg 60); [lia|].
  destruct (lt_int avg 35 || gt_int avg 55); lia.
Qed.

Lemma score_temperature_range (avg : float) :
  0 <= score_temperature avg 0 <= 2.
Proof.
  unfold score_temperature.
  destruct (gt_int avg 95); [lia|]. destruct (gt_int avg 85); lia.
Qed.

Lemma score_vibration_range (avg : float) :
  0 <= score_vibration avg 0 <= 2.
Proof.
  unfold score_vibration.
  destruct (PyFloat.gtb avg (PyFloat.decimal 35 1)); [lia|].
  destruct (PyFloat.gtb avg (PyFloat.decimal 25 1)); lia.
Qed.

Lemma score_pressure_range (avg : float) :
  0 <= score_pressure avg 0 <= 2.
Proof.
  unfold score_pressure.
  destruct (lt_int avg 30 || gt_int avg 60); [lia|].
  destruct (lt_int avg 35 || gt_int avg 55); lia.
Qed.

Lemma points_of_sum (t v p : float) :
  points_of t v p =
  score_temperature t 0 + score_vibration v 0 + score_pressure p 0.
Proof.
  unfold points_of.
  rewrite score_pressure_add, score_vibration_add. lia.
Qed.

Lemma points_of_range (t v p : float) : 0 <= points_of t v p <= 6.
Proof.
  rewrite points_of_sum.
  pose proof (score_temperature_range t).
  pose proof (score_vibration_range v).
  pose proof (score_pressure_range p). lia.
Qed.

Lemma compute_risk_nonempty {alg : SumAlgorithm} (readings : list Reading) :
  readings <> [] -> compute_risk readings = ret (Some (assessment readings)).
Proof.
  intros Hne. destruct readings as [|r rs]; [congruence|].
  unfold compute_risk.
  rewrite !mean_nonempty by exact Hne.
  reflexivity.
Qed.

(* ===================================================================== *)
(** ** Float comparison *)
(* ===================================================================== *)

Lemma SFcompare_swap (x y : float) :
  SFcompare y x = option_map CompOpp (SFcompare x y).
Proof.
  destruct x as [sx|sx| |sx mx ex], y as [sy|sy| |sy my ey]; simpl;
    try reflexivity;
    try (destruct sx; reflexivity);
    try (destruct sy; reflexivity);
    try (destruct sx, sy; reflexivity).
  change (Pos.compare_cont Eq my mx) with (Pos.compare my mx).
  change (Pos.compare_cont Eq mx my) with (Pos.compare mx my).
  rewrite (Z.compare_antisym ex ey), (Pos.compare_antisym mx my).
  destruct sx, sy; simpl; try reflexivity;
    destruct (ex ?= ey); simpl; reflexivity.
Qed.

(** [x <= y] excludes [x > y]. *)
Lemma leb_not_gtb (x y : float) :
  PyFloat.leb x y = true -> PyFloat.gtb x y = false.
Proof.
  unfold PyFloat.leb, PyFloat.gtb, PyFloat.ltb, SFleb, SFltb.
  rewrite (SFcompare_swap x y).
  destruct (SFcompare x y) as [[| |]|]; simpl; congruence.
Qed.

(** [x >= y], written [y <= x], excludes [x < y]. *)
Lemma leb_not_ltb (x y : float) :
  PyFloat.leb y x = true -> PyFloat.ltb x y = false.
Proof. intros H. apply (leb_not_gtb y x H). Qed.

(** Away from NaN the order is total: not [x > y] gives [x <= y]. *)
Lemma not_gtb_leb (x y : float) :
  PyFloat.is_nan x = false -> PyFloat.is_nan y = false ->
  PyFloat.gtb x y = false -> PyFloat.leb x y = true.
Proof.
  unfold PyFloat.leb, PyFloat.gtb, PyFloat.ltb, SFleb, SFltb.
  rewrite (SFcompare_swap x y).
  destruct x as [sx|sx| |sx mx ex], y as [sy|sy| |sy my ey];
    try discriminate; intros _ _;
    destruct (SFcompare _ _) as [[| |]|] eqn:E; simpl;
    try congruence; simpl in E; discriminate E.
Qed.

Lemma not_ltb_leb (x y : float) :
  PyFloat.is_nan x = false -> PyFloat.is_nan y = false ->
  PyFloat.ltb x y = false -> PyFloat.leb y x = true.
Proof. intros Hx Hy H. apply (not_gtb_leb y x Hy Hx H). Qed.

(* ===================================================================== *)
(** ** The risk evaluator's contract *)
(* ===================================================================== *)

(** Temperatures 90, 92, 94 with vibration 1 and pressure 45: means
    (92, 1, 45), one point, score 0.17, LOW. *)
Lemma compute_risk_window_low {alg : SumAlgorithm} :
  compute_risk window_low =
  ret (Some {| risk_score := PyFloat.decimal 17 2;
               risk_points := 1;
               risk_level := "LOW";
               window_used := 3;
               averages := {| avg_temperature_c := PyFloat.decimal 920 1;
                              avg_vibration_rms := PyFloat.decimal 10 1;
                              avg_pressure_psi := PyFloat.decimal 450 1 |} |}).
Proof. destruct alg; vm_compute; reflexivity. Qed.

(** All readings at (100, 4.0, 65): six points, score 1.0, HIGH. *)
Lemma compute_risk_window_high {alg : SumAlgorithm} :
  compute_risk window_high =
  ret (Some {| risk_score := PyFloat.decimal 10 1;
               risk_points := 6;
               risk_level := "HIGH";
               window_used := 2;
               averages := {| avg_temperature_c := PyFloat.decimal 1000 1;
                              avg_vibration_rms := PyFloat.decimal 40 1;
                              avg_pressure_psi := PyFloat.decimal 650 1 |} |}).
Proof. destruct alg; vm_compute; reflexivity. Qed.

(** [round(_, 2)] on known values: 2.675 is stored just below the tie and
    rounds to 2.67, 0.125 is an exact tie and rounds to the even 0.12, and
    the largest float rounds to itself. *)
Lemma round2_examples :
  PyFloat.round2 (PyFloat.decimal 2675 3) = PyFloat.decimal 267 2 /\
  PyFloat.round2 (PyFloat.decimal 125 3) = PyFloat.decimal 12 2 /\
  PyFloat.round2 (PyFloat.decimal 375 3) = PyFloat.decimal 38 2 /\
  PyFloat.round2 (PyFloat.decimal (-1) 3) = S754_zero true /\
  PyFloat.round2 max_float = max_float /\
  finite_metric max_float = true.
Proof. vm_compute. repeat split. Qed.

Lemma level_low_iff (p : Z) : level_of_points p = "LOW"%string <-> p <= 2.
Proof.
  unfold level_of_points.
  destruct (Z.leb_spec p 2); [|destruct (Z.leb_spec p 4)];
    split; intros H'; try discriminate H'; try reflexivity; lia.
Qed.

Lemma level_medium_iff (p : Z) :
  level_of_points p = "MEDIUM"%string <-> 3 <= p <= 4.
Proof.
  unfold level_of_points.
  destruct (Z.leb_spec p 2); [|destruct (Z.leb_spec p 4)];
    split; intros H'; try discriminate H'; try reflexivity; lia.
Qed.

Lemma level_high_iff (p : Z) : level_of_points p = "HIGH"%string <-> 5 <= p.
Proof.
  unfold level_of_points.
  destruct (Z.leb_spec p 2); [|destruct (Z.leb_spec p 4)];
    split; intros H'; try discriminate H'; try reflexivity; lia.
Qed.

(** C1: for every non-empty window [compute_risk] returns an assessment
    whose [risk_points] lies in [0,6] and whose [risk_level] is fixed by the
    partition of that range: LOW exactly for points at most 2, MEDIUM
    exactly for 3 and 4, HIGH exactly for 5 and more. *)
Theorem compute_risk_points_and_level {alg : SumAlgorithm}
    (readings : list Reading) :
  readings <> [] ->
  exists a,
    compute_risk readings = ret (Some a) /\
    0 <= risk_points a <= 6 /\
    (risk_level a = "LOW"%string <-> risk_points a <= 2) /\
    (risk_level a = "MEDIUM"%string <-> 3 <= risk_points a <= 4) /\
    (risk_level a = "HIGH"%string <-> 5 <= risk_points a).
Proof.
  intros Hne. exists (assessment readings).
  split; [apply compute_risk_nonempty, Hne|].
  cbn [assessment risk_points risk_level].
  split; [apply points_of_range|].
  split; [apply level_low_iff|].
  split; [apply level_medium_iff | apply level_high_iff].
Qed.

Lemma compute_risk_points_and_level_witness :
  window_low <> [] /\
  exists a,
    compute_risk (alg := LeftToRight) window_low = ret (Some a) /\
    0 <= risk_points a <= 6 /\
    (risk_level a = "LOW"%string <-> risk_points a <= 2) /\
    (risk_level a = "MEDIUM"%string <-> 3 <= risk_points a <= 4) /\
    (risk_level a = "HIGH"%string <-> 5 <= risk_points a).
Proof.
  split; [discriminate|].
  apply (compute_risk_points_and_level (alg := LeftToRight) window_low). discriminate.
Defined.

(** C2: the empty window gives "no assessment" ([None]): the call returns
    normally, and returns no assessment at all, so in particular not a LOW
    one; every non-empty window gives an assessment. *)
Theorem compute_risk_none_iff_empty {alg : SumAlgorithm} :
  compute_risk [] = ret None /\
  (forall e, compute_risk [] <> raise e) /\
  (forall a, compute_risk [] <> ret (Some a)) /\
  (forall r rs, exists a, compute_risk (r :: rs) = ret (Some a)).
Proof.
  split; [reflexivity|].
  split; [intros e H; discriminate H|].
  split; [intros a H; discriminate H|].
  intros r rs. exists (assessment (r :: rs)).
  apply compute_risk_nonempty. discriminate.
Qed.

(** Line 75 evaluated at each of the seven point totals. *)
Lemma score_of_points_table :
  map score_of_points [0; 1; 2; 3; 4; 5; 6] = map ret score_values.
Proof. vm_compute. reflexivity. Qed.

(** C3: for every non-empty window the returned [risk_score] is
    [round(risk_points / 6, 2)], and it is the entry for [risk_points] in the
    list 0.0, 0.17, 0.33, 0.5, 0.67, 0.83, 1.0, which is what that
    expression yields on the totals 0 to 6. *)
Theorem risk_score_is_rounded_sixth {alg : SumAlgorithm}
    (readings : list Reading) :
  readings <> [] ->
  exists a,
    compute_risk readings = ret (Some a) /\
    score_of_points (risk_points a) = ret (risk_score a) /\
    nth_error score_values (Z.to_nat (risk_points a)) = Some (risk_score a) /\
    map score_of_points [0; 1; 2; 3; 4; 5; 6] = map ret score_values.
Proof.
  intros Hne. exists (assessment readings).
  split; [apply compute_risk_nonempty, Hne|].
  pose proof (points_of_range (average temperature_c readings)
                (average vibration_rms readings)
                (average pressure_psi readings)) as Hp.
  cbn [assessment risk_points risk_score].
  set (p := points_of _ _ _) in *.
  split; [reflexivity|].
  split; [|apply score_of_points_table].
  assert (E : p = 0 \/ p = 1 \/ p = 2 \/ p = 3 \/ p = 4 \/ p = 5 \/ p = 6)
    by lia.
  clearbody p.
  destruct E as [E|[E|[E|[E|[E|[E|E]]]]]]; subst p; vm_compute; reflexivity.
Qed.

Lemma risk_score_is_rounded_sixth_witness :
  window_low <> [] /\
  exists a,
    compute_risk (alg := LeftToRight) window_low = ret (Some a) /\
    score_of_points (risk_points a) = ret (risk_score a) /\
    nth_error score_values (Z.to_nat (risk_points a)) = Some (risk_score a) /\
    map score_of_points [0; 1; 2; 3; 4; 5; 6] = map ret score_values.
Proof.
  split; [discriminate|].
  apply (risk_score_is_rounded_sixth (alg := LeftToRight) window_low). discriminate.
Defined.

(* ===================================================================== *)
(** ** Banding *)
(* ===================================================================== *)

(** The integer thresholds, as the floats the comparisons see. *)
Lemma of_int_thresholds :
  PyFloat.of_int 95 = PyFloat.decimal 950 1 /\
  PyFloat.of_int 85 = PyFloat.decimal 850 1 /\
  PyFloat.of_int 30 = PyFloat.decimal 300 1 /\
  PyFloat.of_int 35 = PyFloat.decimal 350 1 /\
  PyFloat.of_int 55 = PyFloat.decimal 550 1 /\
  PyFloat.of_int 60 = PyFloat.decimal 600 1.
Proof. vm_compute. repeat split. Qed.

Lemma risk_points_assessment {alg : SumAlgorithm} (readings : list Reading) :
  risk_points (assessment readings) =
  score_temperature (average temperature_c readings) 0 +
  score_vibration (average vibration_rms readings) 0 +
  score_pressure (average pressure_psi readings) 0.
Proof. cbn [assessment risk_points]. apply points_of_sum. Qed.

(** The temperature block as a function of the two comparisons. *)
Lemma score_temperature_cases (t : float) (rp : Z) :
  (PyFloat.gtb t (PyFloat.decimal 950 1) = true ->
   score_temperature t rp = rp + 2) /\
  (PyFloat.gtb t (PyFloat.decimal 950 1) = false ->
   PyFloat.gtb t (PyFloat.decimal 850 1) = true ->
   score_temperature t rp = rp + 1) /\
  (PyFloat.gtb t (PyFloat.decimal 950 1) = false ->
   PyFloat.gtb t (PyFloat.decimal 850 1) = false ->
   score_temperature t rp = rp).
Proof.
  destruct of_int_thresholds as (E95 & E85 & _).
  unfold score_temperature, gt_int. rewrite E95, E85.
  repeat split; intros H1; try intros H2; rewrite H1; try rewrite H2;
    reflexivity.
Qed.

(** C4: the temperature thresholds are strict.  For every non-empty window,
    with [t] its unrounded mean temperature: [t] exactly 95.0 adds 1 point
    and not 2, [t] exactly 85.0 adds none, [t > 95] adds 2, and
    [85 < t <= 95] adds 1; the points so added are the temperature share of
    the returned [risk_points]. *)
Theorem temperature_thresholds_strict {alg : SumAlgorithm}
    (readings : list Reading) :
  readings <> [] ->
  let t := average temperature_c readings in
  exists a,
    compute_risk readings = ret (Some a) /\
    mean temperature_c readings = ret t /\
    risk_points a =
      score_temperature t 0 +
      score_vibration (average vibration_rms readings) 0 +
      score_pressure (average pressure_psi readings) 0 /\
    (forall rp,
        (t = PyFloat.decimal 950 1 -> score_temperature t rp = rp + 1) /\
        (t = PyFloat.decimal 850 1 -> score_temperature t rp = rp) /\
        (PyFloat.gtb t (PyFloat.decimal 950 1) = true ->
         score_temperature t rp = rp + 2) /\
        (PyFloat.gtb t (PyFloat.decimal 850 1) = true ->
         PyFloat.leb t (PyFloat.decimal 950 1) = true ->
         score_temperature t rp = rp + 1)).
Proof.
  intros Hne t. exists (assessment readings).
  split; [apply compute_risk_nonempty, Hne|].
  split; [apply mean_nonempty, Hne|].
  split; [apply risk_points_assessment|].
  intros rp.
  destruct (score_temperature_cases t rp) as (H2 & H1 & H0).
  split; [|split; [|split]].
  - intros E. apply H1; rewrite E; vm_compute; reflexivity.
  - intros E. apply H0; rewrite E; vm_compute; reflexivity.
  - exact H2.
  - intros Hgt Hle. apply H1; [apply leb_not_gtb, Hle | exact Hgt].
Qed.

Lemma temperature_thresholds_strict_witness :
  window_at_95 <> [] /\
  average (alg := LeftToRight) temperature_c window_at_95 = PyFloat.decimal 950 1 /\
  exists a,
    compute_risk (alg := LeftToRight) window_at_95 = ret (Some a) /\
    risk_points a = 1 /\
    score_temperature (average (alg := LeftToRight) temperature_c window_at_95) 0 = 1.
Proof.
  split; [discriminate|].
  split; [vm_compute; reflexivity|].
  destruct (temperature_thresholds_strict (alg := LeftToRight) window_at_95) as (a & Ha & _ & Hp & Hb);
    [discriminate|].
  exists a. split; [exact Ha|].
  destruct (Hb 0) as (H95 & _).
  split.
  - rewrite Hp. vm_compute. reflexivity.
  - apply H95. vm_compute. reflexivity.
Defined.

(** Case analysis on the exponent and mantissa comparisons inside
    [SFcompare]. *)
Ltac cmp_cases :=
  repeat match goal with
  | |- context [Pos.compare_cont Eq ?m ?n] =>
      change (Pos.compare_cont Eq m n) with (Pos.compare m n)
  | H : context [Pos.compare_cont Eq ?m ?n] |- _ =>
      change (Pos.compare_cont Eq m n) with (Pos.compare m n) in H
  end;
  repeat match goal with
  | |- context [Z.compare ?a ?b] => destruct (Z.compare_spec a b)
  | H : context [Z.compare ?a ?b] |- _ => destruct (Z.compare_spec a b)
  | |- context [Pos.compare ?a ?b] => destruct (Pos.compare_spec a b)
  | H : context [Pos.compare ?a ?b] |- _ => destruct (Pos.compare_spec a b)
  end; simpl in *; try congruence; try lia.

(** [a < b <= p] excludes [p < a]. *)
Lemma ltb_leb_trans (a b p : float) :
  PyFloat.ltb a b = true -> PyFloat.leb b p = true -> PyFloat.ltb p a = false.
Proof.
  unfold PyFloat.ltb, PyFloat.leb, SFltb, SFleb.
  destruct a as [sa|sa| |sa ma ea], b as [sb|sb| |sb mb eb],
           p as [sp|sp| |sp mp ep]; simpl;
    try congruence;
    repeat match goal with s : bool |- _ => destruct s end; simpl;
    try congruence; cmp_cases.
Qed.

(** [p <= b < c] excludes [c < p]. *)
Lemma leb_ltb_trans (p b c : float) :
  PyFloat.leb p b = true -> PyFloat.ltb b c = true -> PyFloat.ltb c p = false.
Proof.
  unfold PyFloat.ltb, PyFloat.leb, SFltb, SFleb.
  destruct p as [sp|sp| |sp mp ep], b as [sb|sb| |sb mb eb],
           c as [sc|sc| |sc mc ec]; simpl;
    try congruence;
    repeat match goal with s : bool |- _ => destruct s end; simpl;
    try congruence; cmp_cases.
Qed.

(** The pressure block as a function of its four comparisons. *)
Lemma score_pressure_cases (p : float) (rp : Z) :
  score_pressure p rp =
  if PyFloat.ltb p (PyFloat.decimal 300 1) || PyFloat.gtb p (PyFloat.decimal 600 1)
  then rp + 2
  else if PyFloat.ltb p (PyFloat.decimal 350 1) || PyFloat.gtb p (PyFloat.decimal 550 1)
  then rp + 1
  else rp.
Proof.
  destruct of_int_thresholds as (_ & _ & E30 & E35 & E55 & E60).
  unfold score_pressure, lt_int, gt_int. rewrite E30, E35, E55, E60.
  reflexivity.
Qed.

(** Inside [35, 55] none of the four pressure comparisons holds. *)
Lemma pressure_in_band (p : float) :
  PyFloat.leb (PyFloat.decimal 350 1) p = true ->
  PyFloat.leb p (PyFloat.decimal 550 1) = true ->
  PyFloat.ltb p (PyFloat.decimal 300 1) = false /\
  PyFloat.gtb p (PyFloat.decimal 600 1) = false /\
  PyFloat.ltb p (PyFloat.decimal 350 1) = false /\
  PyFloat.gtb p (PyFloat.decimal 550 1) = false.
Proof.
  intros Hlo Hhi. repeat split.
  - apply (ltb_leb_trans _ (PyFloat.decimal 350 1)); [vm_compute; reflexivity | exact Hlo].
  - apply (leb_ltb_trans _ (PyFloat.decimal 550 1)); [exact Hhi | vm_compute; reflexivity].
  - apply leb_not_ltb, Hlo.
  - apply leb_not_gtb, Hhi.
Qed.

(** C5: pressure banding is two-sided and not cumulative.  For every
    non-empty window, with [p] its unrounded mean pressure, the pressure
    block adds exactly 2 when [p < 30] or [p > 60], exactly 1 when [p < 35]
    or [p > 55] outside that band, and 0 otherwise; it adds 0 on all of
    [35, 55], a block that adds 0 to a mean that is a number has its mean in
    [35, 55], and no mean earns the points of two bands. *)
Theorem pressure_banding {alg : SumAlgorithm} (readings : list Reading) :
  readings <> [] ->
  let p := average pressure_psi readings in
  exists a,
    compute_risk readings = ret (Some a) /\
    mean pressure_psi readings = ret p /\
    risk_points a =
      score_temperature (average temperature_c readings) 0 +
      score_vibration (average vibration_rms readings) 0 +
      score_pressure p 0 /\
    (forall rp,
        (PyFloat.ltb p (PyFloat.decimal 300 1) = true \/
         PyFloat.gtb p (PyFloat.decimal 600 1) = true ->
         score_pressure p rp = rp + 2) /\
        (PyFloat.ltb p (PyFloat.decimal 300 1) = false ->
         PyFloat.gtb p (PyFloat.decimal 600 1) = false ->
         PyFloat.ltb p (PyFloat.decimal 350 1) = true \/
         PyFloat.gtb p (PyFloat.decimal 550 1) = true ->
         score_pressure p rp = rp + 1) /\
        (PyFloat.ltb p (PyFloat.decimal 300 1) = false ->
         PyFloat.gtb p (PyFloat.decimal 600 1) = false ->
         PyFloat.ltb p (PyFloat.decimal 350 1) = false ->
         PyFloat.gtb p (PyFloat.decimal 550 1) = false ->
         score_pressure p rp = rp) /\
        (PyFloat.leb (PyFloat.decimal 350 1) p = true ->
         PyFloat.leb p (PyFloat.decimal 550 1) = true ->
         score_pressure p rp = rp) /\
        (PyFloat.is_nan p = false -> score_pressure p rp = rp ->
         PyFloat.leb (PyFloat.decimal 350 1) p = true /\
         PyFloat.leb p (PyFloat.decimal 550 1) = true) /\
        (score_pressure p rp = rp \/ score_pressure p rp = rp + 1 \/
         score_pressure p rp = rp + 2)).
Proof.
  intros Hne p. exists (assessment readings).
  split; [apply compute_risk_nonempty, Hne|].
  split; [apply mean_nonempty, Hne|].
  split; [apply risk_points_assessment|].
  intros rp. rewrite (score_pressure_cases p rp).
  repeat split.
  - intros [H|H]; rewrite H; [|rewrite orb_true_r]; reflexivity.
  - intros H30 H60 [H|H]; rewrite H30, H60, H; [|rewrite orb_true_r];
      reflexivity.
  - intros H30 H60 H35 H55. rewrite H30, H60, H35, H55. reflexivity.
  - intros Hlo Hhi.
    destruct (pressure_in_band p Hlo Hhi) as (H30 & H60 & H35 & H55).
    rewrite H30, H60, H35, H55. reflexivity.
  - destruct (PyFloat.ltb p (PyFloat.decimal 300 1) || _); [lia|].
    destruct (PyFloat.ltb p (PyFloat.decimal 350 1)) eqn:H35; [simpl in H0; lia|].
    apply not_ltb_leb; [exact H | reflexivity | exact H35].
  - destruct (PyFloat.ltb p (PyFloat.decimal 300 1) || _); [lia|].
    destruct (PyFloat.gtb p (PyFloat.decimal 550 1)) eqn:H55;
      [rewrite orb_true_r in H0; lia|].
    apply not_gtb_leb; [exact H | reflexivity | exact H55].
  - destruct (_ || _); [right; right; reflexivity|].
    destruct (_ || _); [right; left; reflexivity | left; reflexivity].
Qed.

Lemma pressure_banding_witness :
  window_high <> [] /\
  PyFloat.gtb (average (alg := LeftToRight) pressure_psi window_high) (PyFloat.decimal 600 1) = true /\
  exists a,
    compute_risk (alg := LeftToRight) window_high = ret (Some a) /\
    score_pressure (average (alg := LeftToRight) pressure_psi window_high) 0 = 2.
Proof.
  split; [discriminate|].
  split; [vm_compute; reflexivity|].
  destruct (pressure_banding (alg := LeftToRight) window_high) as (a & Ha & _ & _ & Hb);
    [discriminate|].
  exists a. split; [exact Ha|].
  destruct (Hb 0) as (H2 & _).
  apply H2. right. vm_compute. reflexivity.
Defined.

(* ===================================================================== *)
(** ** Reported averages, totality, and what the result depends on *)
(* ===================================================================== *)

(** Scoring the reported (rounded) averages instead of the means would
    change the result: at a mean temperature of 95.004 the code gives 2
    temperature points, the rounded 95.0 would give 1. *)
Lemma rounding_would_change_points {alg : SumAlgorithm} :
  exists a,
    compute_risk window_just_above_95 = ret (Some a) /\
    risk_points a = 2 /\
    points_of (avg_temperature_c (averages a))
              (avg_vibration_rms (averages a))
              (avg_pressure_psi (averages a)) = 1.
Proof.
  exists (assessment window_just_above_95).
  split; [apply compute_risk_nonempty; discriminate|].
  destruct alg; split; vm_compute; reflexivity.
Qed.

(** C6: for every non-empty window the band comparisons that fix
    [risk_points] are made on the unrounded means (sum divided by the
    length), the reported averages are those means rounded to two decimal
    places, and the rounded values are not what is scored: there are windows
    whose [risk_points] differ from the points of their reported averages. *)
Theorem thresholds_use_unrounded_means {alg : SumAlgorithm}
    (readings : list Reading) :
  readings <> [] ->
  let t := average temperature_c readings in
  let v := average vibration_rms readings in
  let p := average pressure_psi readings in
  exists a,
    compute_risk readings = ret (Some a) /\
    mean temperature_c readings = ret t /\
    mean vibration_rms readings = ret v /\
    mean pressure_psi readings = ret p /\
    risk_points a = points_of t v p /\
    averages a = {| avg_temperature_c := PyFloat.round2 t;
                    avg_vibration_rms := PyFloat.round2 v;
                    avg_pressure_psi := PyFloat.round2 p |} /\
    exists w a',
      compute_risk w = ret (Some a') /\
      risk_points a' <>
      points_of (avg_temperature_c (averages a'))
                (avg_vibration_rms (averages a'))
                (avg_pressure_psi (averages a')).
Proof.
  intros Hne t v p. exists (assessment readings).
  split; [apply compute_risk_nonempty, Hne|].
  repeat (split; [apply mean_nonempty, Hne|]).
  split; [reflexivity|]. split; [reflexivity|].
  destruct rounding_would_change_points as (a' & Ha' & H2 & H1).
  exists window_just_above_95, a'.
  split; [exact Ha'|]. rewrite H2, H1. discriminate.
Qed.

Lemma thresholds_use_unrounded_means_witness :
  window_just_above_95 <> [] /\
  exists a,
    compute_risk (alg := LeftToRight) window_just_above_95 = ret (Some a) /\
    risk_points a =
      points_of (average (alg := LeftToRight) temperature_c window_just_above_95)
                (average (alg := LeftToRight) vibration_rms window_just_above_95)
                (average (alg := LeftToRight) pressure_psi window_just_above_95) /\
    avg_temperature_c (averages a) = PyFloat.decimal 950 1.
Proof.
  split; [discriminate|].
  destruct (thresholds_use_unrounded_means (alg := LeftToRight) window_just_above_95)
    as (a & Ha & _ & _ & _ & Hp & Hav & _); [discriminate|].
  exists a. split; [exact Ha|]. split; [exact Hp|].
  rewrite Hav. vm_compute. reflexivity.
Defined.

(** C9: [compute_risk] is total and raises nothing: on every window it
    returns a value.  Its three divisions divide by the window length, a
    zero divisor would raise [ZeroDivisionError], and the emptiness test of
    line 47 keeps them from running on a zero length: whenever they run the
    length is not zero and each of them returns. *)
Theorem compute_risk_total {alg : SumAlgorithm} (readings : list Reading) :
  (exists result, compute_risk readings = ret result) /\
  (forall e, compute_risk readings <> raise e) /\
  (forall x, truediv_float_int x 0 = raise ZeroDivisionError) /\
  (forall metric, mean metric [] = raise ZeroDivisionError) /\
  (readings <> [] ->
   len readings <> 0 /\
   forall metric, mean metric readings = ret (average metric readings)).
Proof.
  assert (Hret : exists result, compute_risk readings = ret result).
  { destruct readings as [|r rs].
    - exists None. reflexivity.
    - exists (Some (assessment (r :: rs))).
      apply compute_risk_nonempty. discriminate. }
  split; [exact Hret|].
  split; [intros e He; destruct Hret as (x & Hx); rewrite Hx in He;
          discriminate He|].
  split; [reflexivity|].
  split; [reflexivity|].
  intros Hne. split; [apply len_nonempty, Hne|].
  intros metric. apply mean_nonempty, Hne.
Qed.

Lemma compute_risk_total_witness :
  window_low <> [] /\
  (exists result, compute_risk (alg := LeftToRight) window_low = ret result) /\
  len window_low <> 0.
Proof.
  split; [discriminate|].
  destruct (compute_risk_total (alg := LeftToRight) window_low) as (Hret & _ & _ & _ & Hdiv).
  split; [exact Hret|].
  apply Hdiv. discriminate.
Defined.

Lemma same_metrics_maps (l l' : list Reading) :
  Forall2 same_metrics l l' ->
  map temperature_c l = map temperature_c l' /\
  map vibration_rms l = map vibration_rms l' /\
  map pressure_psi l = map pressure_psi l' /\
  List.length l = List.length l'.
Proof.
  induction 1 as [|r r' l l' (Ht & Hv & Hp) _ (IHt & IHv & IHp & IHn)].
  - repeat split.
  - simpl. rewrite Ht, Hv, Hp, IHt, IHv, IHp, IHn. repeat split.
Qed.

(** The assessment is a function of the three metric columns alone. *)
Lemma compute_risk_by_columns {alg : SumAlgorithm} (l l' : list Reading) :
  map temperature_c l = map temperature_c l' ->
  map vibration_rms l = map vibration_rms l' ->
  map pressure_psi l = map pressure_psi l' ->
  compute_risk l = compute_risk l'.
Proof.
  intros Ht Hv Hp.
  assert (Hn : List.length l = List.length l')
    by (rewrite <- (length_map temperature_c l), Ht; apply length_map).
  destruct l as [|r rs], l' as [|r' rs']; try discriminate Hn.
  - reflexivity.
  - rewrite !compute_risk_nonempty by discriminate.
    unfold assessment, average, len. rewrite Ht, Hv, Hp, Hn. reflexivity.
Qed.

(** C10: two windows of the same length that agree reading by reading on
    [temperature_c], [vibration_rms] and [pressure_psi] get the same result
    from [compute_risk], whatever their [id], [asset_id] and [recorded_at]
    are. *)
Theorem compute_risk_ignores_other_fields {alg : SumAlgorithm}
    (l l' : list Reading) :
  Forall2 same_metrics l l' ->
  compute_risk l = compute_risk l'.
Proof.
  intros H. destruct (same_metrics_maps l l' H) as (Ht & Hv & Hp & _).
  apply compute_risk_by_columns; assumption.
Qed.

Lemma compute_risk_ignores_other_fields_witness :
  let r := mkReading 7 "aircraft-C130-017" (PyFloat.decimal 960 1)
             (PyFloat.decimal 30 1) (PyFloat.decimal 450 1) 1700000000 in
  let r' := mkReading 99 "pump-3" (PyFloat.decimal 960 1)
              (PyFloat.decimal 30 1) (PyFloat.decimal 450 1) 12 in
  Forall2 same_metrics [r] [r'] /\ compute_risk (alg := LeftToRight) [r] = compute_risk (alg := LeftToRight) [r'].
Proof.
  intros r r'.
  assert (H : Forall2 same_metrics [r] [r'])
    by (repeat constructor).
  split; [exact H|].
  apply (compute_risk_ignores_other_fields (alg := LeftToRight) [r] [r'] H).
Defined.

(* ===================================================================== *)
(** ** Reordering the window *)
(* ===================================================================== *)

(** The assessment is a function of the window length and the three
    sums. *)
Lemma compute_risk_by_sums {alg : SumAlgorithm} (l l' : list Reading) :
  List.length l = List.length l' ->
  sum (map temperature_c l) = sum (map temperature_c l') ->
  sum (map vibration_rms l) = sum (map vibration_rms l') ->
  sum (map pressure_psi l) = sum (map pressure_psi l') ->
  compute_risk l = compute_risk l'.
Proof.
  intros Hn Ht Hv Hp.
  destruct l as [|r rs], l' as [|r' rs']; try discriminate Hn.
  - reflexivity.
  - rewrite !compute_risk_nonempty by discriminate.
    unfold assessment, average, len. rewrite Ht, Hv, Hp, Hn. reflexivity.
Qed.

(** Float addition is commutative. *)
Lemma add_comm (x y : float) : PyFloat.add x y = PyFloat.add y x.
Proof.
  destruct x as [[|]|[|]| |sx mx ex], y as [[|]|[|]| |sy my ey];
    try reflexivity.
  unfold PyFloat.add, SFadd.
  rewrite (Z.min_comm ex ey), Z.add_comm. reflexivity.
Qed.

(** Adding onto the start value [0] changes nothing but the sign of a
    negative zero. *)
Lemma add_start (x : float) :
  PyFloat.add (PyFloat.of_int 0) x =
  match x with S754_zero true => S754_zero false | _ => x end.
Proof. destruct x as [[|]|[|]| |s m e]; reflexivity. Qed.

(** The running sum of the compensated loop is the left-to-right sum. *)
Lemma compensated_running_sum (xs : list float) :
  forall f c,
    fst (fold_left compensated_step xs (f, c)) = fold_left PyFloat.add xs f.
Proof.
  induction xs as [|x xs IH]; intros f c; [reflexivity|].
  cbn [fold_left]. unfold compensated_step at 2. apply IH.
Qed.

Lemma sub_diag (s : bool) (m : positive) (e : Z) :
  PyFloat.sub (S754_finite s m e) (S754_finite s m e) = S754_zero false.
Proof.
  unfold PyFloat.sub, SFsub. rewrite Z.sub_diag. reflexivity.
Qed.

Lemma add_opp (s : bool) (m : positive) (e : Z) :
  PyFloat.add (S754_finite s m e) (S754_finite (negb s) m e) = S754_zero false.
Proof.
  unfold PyFloat.add, SFadd.
  set (M := Z.pos (fst (shl_align m e (Z.min e e)))).
  replace (cond_Zopp s M + cond_Zopp (negb s) M) with 0
    by (destruct s; unfold cond_Zopp; cbn [negb]; lia).
  reflexivity.
Qed.

Lemma abs_leb_both (sa sb : bool) (ma mb : positive) (ea eb : Z) :
  PyFloat.leb (PyFloat.abs (S754_finite sb mb eb))
              (PyFloat.abs (S754_finite sa ma ea)) = true ->
  PyFloat.leb (PyFloat.abs (S754_finite sa ma ea))
              (PyFloat.abs (S754_finite sb mb eb)) = true ->
  ma = mb /\ ea = eb.
Proof.
  unfold PyFloat.leb, PyFloat.abs, SFleb, SFabs, SFcompare.
  change (Pos.compare_cont Eq mb ma) with (Pos.compare mb ma).
  change (Pos.compare_cont Eq ma mb) with (Pos.compare ma mb).
  destruct (Z.compare_spec eb ea), (Z.compare_spec ea eb);
    intros H1 H2; try discriminate; try lia.
  destruct (Pos.compare_spec mb ma), (Pos.compare_spec ma mb);
    try discriminate; lia.
Qed.

Lemma abs_leb_total (sa sb : bool) (ma mb : positive) (ea eb : Z) :
  PyFloat.leb (PyFloat.abs (S754_finite sb mb eb))
              (PyFloat.abs (S754_finite sa ma ea)) = false ->
  PyFloat.leb (PyFloat.abs (S754_finite sa ma ea))
              (PyFloat.abs (S754_finite sb mb eb)) = true.
Proof.
  unfold PyFloat.leb, PyFloat.abs, SFleb, SFabs, SFcompare.
  change (Pos.compare_cont Eq mb ma) with (Pos.compare mb ma).
  change (Pos.compare_cont Eq ma mb) with (Pos.compare ma mb).
  destruct (Z.compare_spec eb ea), (Z.compare_spec ea eb);
    intros H1; try discriminate; try reflexivity; try lia.
  destruct (Pos.compare_spec mb ma), (Pos.compare_spec ma mb);
    try discriminate; try reflexivity; lia.
Qed.

Lemma add_zero_finite (s0 s : bool) (m : positive) (e : Z) :
  PyFloat.add (S754_zero s0) (S754_finite s m e) = S754_finite s m e.
Proof. reflexivity. Qed.

Lemma add_finite_zero (s0 s : bool) (m : positive) (e : Z) :
  PyFloat.add (S754_finite s m e) (S754_zero s0) = S754_finite s m e.
Proof. reflexivity. Qed.

Lemma sub_finite_zero (s0 s : bool) (m : positive) (e : Z) :
  PyFloat.sub (S754_finite s m e) (S754_zero s0) = S754_finite s m e.
Proof. reflexivity. Qed.

(** The first two items enter the compensated loop symmetrically. *)
Lemma compensated_first_two (a b : float) :
  compensated_step (PyFloat.add (PyFloat.of_int 0) a, S754_zero false) b =
  compensated_step (PyFloat.add (PyFloat.of_int 0) b, S754_zero false) a.
Proof.
  unfold compensated_step.
  change (PyFloat.of_int 0) with (S754_zero false).
  destruct a as [[|]|[|]| |sa ma ea], b as [[|]|[|]| |sb mb eb];
    try reflexivity;
    rewrite ?add_zero_finite, ?add_finite_zero, ?sub_diag;
    try reflexivity.
  rewrite (add_comm (S754_finite sb mb eb) (S754_finite sa ma ea)).
  destruct (PyFloat.leb (PyFloat.abs (S754_finite sb mb eb))
                        (PyFloat.abs (S754_finite sa ma ea))) eqn:C1,
           (PyFloat.leb (PyFloat.abs (S754_finite sa ma ea))
                        (PyFloat.abs (S754_finite sb mb eb))) eqn:C2;
    try reflexivity.
  - destruct (abs_leb_both _ _ _ _ _ _ C1 C2) as (-> & ->).
    pose proof (add_opp true mb eb) as Etf.
    pose proof (add_opp false mb eb) as Eft.
    cbn [negb] in Etf, Eft.
    destruct sa, sb; try reflexivity;
      rewrite ?Etf, ?Eft, !sub_finite_zero, ?Etf, ?Eft; reflexivity.
  - rewrite (abs_leb_total _ _ _ _ _ _ C1) in C2. discriminate C2.
Qed.

Lemma sum_compensated_swap (a b : float) (xs : list float) :
  sum_compensated (a :: b :: xs) = sum_compensated (b :: a :: xs).
Proof.
  unfold sum_compensated. cbn [fold_left].
  rewrite compensated_first_two. reflexivity.
Qed.

Lemma compensated_finish_nan (c : float) :
  compensated_finish (S754_nan, c) = S754_nan.
Proof. destruct c; reflexivity. Qed.

Lemma state_eta (st : float * float) : st = (fst st, snd st).
Proof. destruct st; reflexivity. Qed.

(** The first two additions of the left-to-right sum commute. *)
Lemma add_first_two (a b : float) :
  PyFloat.add (PyFloat.add (PyFloat.of_int 0) a) b =
  PyFloat.add (PyFloat.add (PyFloat.of_int 0) b) a.
Proof.
  rewrite !add_start.
  destruct a as [[|]|[|]| |sa ma ea], b as [[|]|[|]| |sb mb eb];
    try reflexivity.
  apply add_comm.
Qed.

(** Under either algorithm the sum does not change when its first two items
    are exchanged. *)
Lemma sum_swap_first_two {alg : SumAlgorithm} (a b : float)
    (xs : list float) :
  sum (a :: b :: xs) = sum (b :: a :: xs).
Proof.
  destruct alg; unfold sum.
  - unfold sum_left_to_right. cbn [fold_left].
    rewrite add_first_two. reflexivity.
  - apply sum_compensated_swap.
Qed.

(** The sum of two items does not depend on their order. *)
Lemma sum_pair {alg : SumAlgorithm} (a b : float) : sum [a; b] = sum [b; a].
Proof. apply sum_swap_first_two. Qed.

Lemma compute_risk_pair {alg : SumAlgorithm} (r1 r2 : Reading) :
  compute_risk [r1; r2] = compute_risk [r2; r1].
Proof.
  apply compute_risk_by_sums; [reflexivity| | |]; cbn [map]; apply sum_pair.
Qed.

(** With ordinary sensor values the left-to-right summation lets the order
    decide a band: temperatures 86.2, 70.9, 97.9 average to just above 85 in
    that order and to exactly 85.0 in the order 70.9, 97.9, 86.2.  The
    compensated summation gives 85.0 for both. *)
Lemma ordinary_values_reordered :
  Permutation window_near_85 window_near_85_reordered /\
  (exists a, compute_risk (alg := LeftToRight) window_near_85 = ret (Some a) /\
             risk_points a = 3 /\ risk_level a = "MEDIUM"%string) /\
  (exists a, compute_risk (alg := LeftToRight) window_near_85_reordered =
               ret (Some a) /\
             risk_points a = 2 /\ risk_level a = "LOW"%string) /\
  compute_risk (alg := Compensated) window_near_85 =
  compute_risk (alg := Compensated) window_near_85_reordered.
Proof.
  split.
  - unfold window_near_85, window_near_85_reordered.
    eapply perm_trans; [apply perm_swap|]. apply perm_skip, perm_swap.
  - split; [|split].
    + exists (assessment (alg := LeftToRight) window_near_85).
      split; [apply compute_risk_nonempty; discriminate|].
      split; vm_compute; reflexivity.
    + exists (assessment (alg := LeftToRight) window_near_85_reordered).
      split; [apply compute_risk_nonempty; discriminate|].
      split; vm_compute; reflexivity.
    + vm_compute. reflexivity.
Qed.

(** C7, as stated, fails, under either summation algorithm:
    [window_overflow_reordered] is a permutation of [window_overflow], yet
    the first sums its temperatures to [inf] (the partial sum
    [1e308 + 1e308] overflows) and the second to [0.0], so the assessments
    differ in [risk_points] (3 and 1), [risk_level] (MEDIUM and LOW),
    [risk_score] and the reported temperature average. *)
Lemma permutation_changes_assessment :
  forallb finite_reading window_overflow = true /\
  Permutation window_overflow window_overflow_reordered /\
  forall alg : SumAlgorithm,
    compute_risk window_overflow <> compute_risk window_overflow_reordered /\
    exists a a',
      compute_risk window_overflow = ret (Some a) /\
      compute_risk window_overflow_reordered = ret (Some a') /\
      risk_points a = 3 /\ risk_points a' = 1 /\
      risk_level a = "MEDIUM"%string /\ risk_level a' = "LOW"%string /\
      risk_score a = PyFloat.decimal 5 1 /\
      risk_score a' = PyFloat.decimal 17 2 /\
      avg_temperature_c (averages a) = S754_infinity false /\
      avg_temperature_c (averages a') = S754_zero false /\
      window_used a = 4 /\ window_used a' = 4.
Proof.
  split; [vm_compute; reflexivity|].
  split.
  { unfold window_overflow, window_overflow_reordered.
    apply perm_skip, perm_swap. }
  intros alg.
  assert (Ha : compute_risk window_overflow =
               ret (Some (assessment window_overflow)))
    by (apply compute_risk_nonempty; discriminate).
  assert (Ha' : compute_risk window_overflow_reordered =
                ret (Some (assessment window_overflow_reordered)))
    by (apply compute_risk_nonempty; discriminate).
  split.
  - rewrite Ha, Ha'. intros E.
    assert (Hp : risk_points (assessment window_overflow) =
                 risk_points (assessment window_overflow_reordered))
      by (unfold ret in E; congruence).
    destruct alg; vm_compute in Hp; discriminate Hp.
  - exists (assessment window_overflow), (assessment window_overflow_reordered).
    split; [exact Ha|]. split; [exact Ha'|].
    destruct alg; repeat split; vm_compute; reflexivity.
Qed.

(** C7, amended: under either summation algorithm, for every window and
    every permutation of it, [compute_risk] gives no assessment for both or
    an assessment for both, with the same [window_used]; the two assessments
    are identical whenever [sum] returns the same three totals for the two
    orders, and that is so for every window of at most two readings. *)
Theorem compute_risk_permutation {alg : SumAlgorithm} (l l' : list Reading) :
  Permutation l l' ->
  (compute_risk l = ret None <-> compute_risk l' = ret None) /\
  (forall a, compute_risk l = ret (Some a) ->
     exists a', compute_risk l' = ret (Some a') /\
                window_used a' = window_used a) /\
  (sum (map temperature_c l) = sum (map temperature_c l') ->
   sum (map vibration_rms l) = sum (map vibration_rms l') ->
   sum (map pressure_psi l) = sum (map pressure_psi l') ->
   compute_risk l = compute_risk l') /\
  ((List.length l <= 2)%nat -> compute_risk l = compute_risk l').
Proof.
  intros HP. pose proof (Permutation_length HP) as Hn.
  split; [|split; [|split]].
  - destruct l as [|r rs], l' as [|r' rs']; try discriminate Hn.
    + split; reflexivity.
    + rewrite !compute_risk_nonempty by discriminate.
      split; intros H; discriminate H.
  - intros a Ha. destruct l as [|r rs]; [discriminate Ha|].
    destruct l' as [|r' rs']; [discriminate Hn|].
    exists (assessment (r' :: rs')).
    split; [apply compute_risk_nonempty; discriminate|].
    rewrite compute_risk_nonempty in Ha by discriminate.
    assert (E : a = assessment (r :: rs)) by (unfold ret in Ha; congruence).
    rewrite E. cbn [assessment window_used]. unfold len. rewrite Hn.
    reflexivity.
  - intros Ht Hv Hp. apply compute_risk_by_sums; assumption.
  - intros Hle. destruct l as [|a [|b [|c rest]]].
    + apply Permutation_nil in HP. subst l'. reflexivity.
    + apply Permutation_length_1_inv in HP. subst l'. reflexivity.
    + apply Permutation_length_2_inv in HP.
      destruct HP as [E|E]; subst l'; [reflexivity | apply compute_risk_pair].
    + simpl in Hle. lia.
Qed.

Lemma compute_risk_permutation_witness :
  let r1 := sample (PyFloat.decimal 862 1) (PyFloat.decimal 40 1)
              (PyFloat.decimal 450 1) in
  let r2 := sample (PyFloat.decimal 979 1) (PyFloat.decimal 31 1)
              (PyFloat.decimal 612 1) in
  Permutation [r1; r2] [r2; r1] /\
  compute_risk (alg := LeftToRight) [r1; r2] = compute_risk (alg := LeftToRight) [r2; r1].
Proof.
  intros r1 r2.
  assert (HP : Permutation [r1; r2] [r2; r1]) by apply perm_swap.
  split; [exact HP|].
  apply (compute_risk_permutation (alg := LeftToRight) [r1; r2] [r2; r1] HP).
  simpl. lia.
Defined.

(* ===================================================================== *)
(** ** The retrieval endpoint *)
(* ===================================================================== *)

Lemma insert_desc_perm (r : Row) (l : list Row) :
  Permutation (r :: l) (insert_desc r l).
Proof.
  induction l as [|r' l IH]; simpl.
  - apply Permutation_refl.
  - destruct (row_recorded_at r' <=? row_recorded_at r).
    + apply Permutation_refl.
    + eapply perm_trans; [apply perm_swap | apply perm_skip, IH].
Qed.

Lemma sort_desc_perm (l : list Row) : Permutation l (sort_desc l).
Proof.
  induction l as [|r l IH]; simpl.
  - apply perm_nil.
  - eapply perm_trans; [apply perm_skip, IH | apply insert_desc_perm].
Qed.

Lemma insert_desc_sorted (r : Row) (l : list Row) :
  recorded_at_desc l -> recorded_at_desc (insert_desc r l).
Proof.
  induction l as [|r' l IH]; simpl.
  - intros _. split; [constructor | exact I].
  - intros (Hall & Hl).
    destruct (Z.leb_spec (row_recorded_at r') (row_recorded_at r)) as [Hle|Hgt].
    + split; [|split; assumption].
      constructor; [exact Hle|].
      eapply Forall_impl; [|exact Hall]. cbv beta. intros x Hx. lia.
    + split; [|apply IH, Hl].
      apply (Permutation_Forall (insert_desc_perm r l)).
      constructor; [lia | exact Hall].
Qed.

Lemma sort_desc_sorted (l : list Row) : recorded_at_desc (sort_desc l).
Proof.
  induction l as [|r l IH]; simpl; [exact I | apply insert_desc_sorted, IH].
Qed.

#[export] Instance insertion_order_laws : @OrderByLaws insertion_order.
Proof. split; [exact sort_desc_perm | exact sort_desc_sorted]. Qed.

Lemma len_map {A B : Type} (f : A -> B) (l : list A) : len (map f l) = len l.
Proof. unfold len. rewrite length_map. reflexivity. Qed.

(** The query returns as many rows as the asset has, up to the limit. *)
Lemma select_latest_len `{OrderByLaws} (table : list Row) (asset : string)
    (limit : Z) :
  0 <= limit ->
  len (select_latest table asset limit) =
  Z.min limit
    (len (filter (fun r => String.eqb (row_asset_id r) asset) table)).
Proof.
  intros Hl. unfold select_latest, len.
  rewrite length_firstn.
  rewrite <- (Permutation_length (order_by_permutes _)).
  lia.
Qed.

Lemma window_used_is_len {alg : SumAlgorithm}
    (readings : list Reading) (a : RiskAssessment) :
  compute_risk readings = ret (Some a) -> window_used a = len readings.
Proof.
  intros H. destruct readings as [|r rs]; [discriminate H|].
  rewrite compute_risk_nonempty in H by discriminate.
  assert (E : a = assessment (r :: rs)) by (unfold ret in H; congruence).
  rewrite E. reflexivity.
Qed.

(** What the endpoint returns for a valid request on a reachable store. *)
Lemma get_latest_telemetry_ok {alg : SumAlgorithm} `{OrderBy}
    (table : list Row) (asset : string) (limit : Z) :
  asset <> ""%string -> 1 <= limit <= 50 ->
  exists risk,
    compute_risk (map reading_of_row (select_latest table asset limit)) =
      ret risk /\
    get_latest_telemetry (Serving table) asset limit =
    ret {| resp_asset_id := asset;
           resp_window_requested := limit;
           resp_window_used :=
             len (map reading_of_row (select_latest table asset limit));
           resp_count :=
             len (map reading_of_row (select_latest table asset limit));
           resp_readings := map reading_of_row (select_latest table asset limit);
           resp_risk := risk |}.
Proof.
  intros Ha Hl. unfold get_latest_telemetry.
  assert (E1 : (String.length asset =? 0)%nat = false)
    by (destruct asset; [congruence | reflexivity]).
  assert (E2 : (limit <? 1) = false) by lia.
  assert (E3 : (50 <? limit) = false) by lia.
  rewrite E1, E2, E3. unfold latest_body. cbn [orb bind ret].
  set (readings := map reading_of_row (select_latest table asset limit)).
  destruct readings as [|r rs] eqn:E.
  - exists None. split; reflexivity.
  - exists (Some (assessment (r :: rs))).
    rewrite compute_risk_nonempty by discriminate.
    split; reflexivity.
Qed.

(** The [try] blocks of the two endpoints raise nothing but driver errors:
    the scoring inside the retrieval block never raises. *)
Lemma latest_body_raises {alg : SumAlgorithm} `{OrderBy} (db : Store)
    (asset : string) (limit : Z) (e : exn) :
  latest_body db asset limit = raise e ->
  exists error,
    e = DatabaseError error /\ (db = Unreachable error \/ db = Failing error).
Proof.
  unfold latest_body. destruct db as [error|error|table].
  - intros E. exists error.
    split; [inversion E; reflexivity | left; reflexivity].
  - intros E. exists error.
    split; [inversion E; reflexivity | right; reflexivity].
  - cbn [bind ret]. destruct (map reading_of_row _) as [|r rs].
    + intros E. discriminate E.
    + rewrite compute_risk_nonempty by discriminate. intros E. discriminate E.
Qed.

Lemma create_body_raises (db : Store) (payload : TelemetryIn)
    (new_id new_ts : Z) (e : exn) :
  fst (create_body db payload new_id new_ts) = raise e ->
  exists error,
    e = DatabaseError error /\ (db = Unreachable error \/ db = Failing error).
Proof.
  unfold create_body. destruct db as [error|error|table]; cbn [fst].
  - intros E. exists error.
    split; [inversion E; reflexivity | left; reflexivity].
  - intros E. exists error.
    split; [inversion E; reflexivity | right; reflexivity].
  - intros E. discriminate E.
Qed.

(** An asset without history: an empty window, [window_used = 0] and a null
    risk. *)
Lemma get_latest_telemetry_no_history {alg : SumAlgorithm} :
  get_latest_telemetry (H := insertion_order) (Serving table_two_rows)
    "tank-9" 5 =
  ret {| resp_asset_id := "tank-9";
         resp_window_requested := 5;
         resp_window_used := 0;
         resp_count := 0;
         resp_readings := [];
         resp_risk := None |}.
Proof. reflexivity. Qed.

(** A store that cannot be reached or whose statements fail is a server
    error carrying the driver's text, not an empty window. *)
Lemma get_latest_telemetry_store_down {alg : SumAlgorithm} `{OrderBy}
    (db : Store) (error : string) (asset : string) (limit : Z) :
  asset <> ""%string -> 1 <= limit <= 50 ->
  db = Unreachable error \/ db = Failing error ->
  get_latest_telemetry db asset limit =
  raise (HTTPException 500 ("db_read_failed: " ++ error)).
Proof.
  intros Ha Hl Hdb. unfold get_latest_telemetry.
  assert (E1 : (String.length asset =? 0)%nat = false)
    by (destruct asset; [congruence | reflexivity]).
  assert (E2 : (limit <? 1) = false) by lia.
  assert (E3 : (50 <? limit) = false) by lia.
  rewrite E1, E2, E3. destruct Hdb as [-> | ->]; reflexivity.
Qed.

(** C8: [window_used] is the number of readings supplied, not the requested
    window.  Every assessment [compute_risk] returns for a window has
    [window_used] equal to the window's length.  For a valid request the
    endpoint returns as many readings as the asset has stored, up to
    [limit], reports that count as [window_used], and the assessment it
    attaches was computed on those readings and carries the same count; with
    [limit = 5] and two stored readings it returns two readings and
    [window_used = 2], in the response and in the assessment. *)
Theorem window_used_is_available_count {alg : SumAlgorithm} `{OrderByLaws}
    (table : list Row) (asset : string) (limit : Z) :
  asset <> ""%string -> 1 <= limit <= 50 ->
  let stored := filter (fun r => String.eqb (row_asset_id r) asset) table in
  (forall readings a,
      compute_risk readings = ret (Some a) -> window_used a = len readings) /\
  exists resp,
    get_latest_telemetry (Serving table) asset limit = ret resp /\
    resp_window_requested resp = limit /\
    len (resp_readings resp) = Z.min limit (len stored) /\
    resp_window_used resp = len (resp_readings resp) /\
    compute_risk (resp_readings resp) = ret (resp_risk resp) /\
    (forall a, resp_risk resp = Some a ->
               window_used a = len (resp_readings resp)) /\
    (limit = 5 -> len stored = 2 ->
     len (resp_readings resp) = 2 /\
     resp_window_used resp = 2 /\
     exists a, resp_risk resp = Some a /\ window_used a = 2).
Proof.
  intros Ha Hl stored.
  split; [exact window_used_is_len|].
  destruct (get_latest_telemetry_ok table asset limit Ha Hl) as (risk & Hr & Hg).
  eexists. split; [exact Hg|].
  cbn [resp_window_requested resp_readings resp_window_used resp_risk].
  assert (Hlen : len (map reading_of_row (select_latest table asset limit)) =
                 Z.min limit (len stored)).
  { rewrite len_map. apply select_latest_len. lia. }
  split; [reflexivity|].
  split; [exact Hlen|].
  split; [reflexivity|].
  split; [exact Hr|].
  split.
  - intros a Ea. subst risk. apply window_used_is_len, Hr.
  - intros E5 E2. rewrite Hlen, E5, E2.
    split; [reflexivity|]. split; [reflexivity|].
    destruct (map reading_of_row (select_latest table asset limit))
      as [|r rs] eqn:E.
    + exfalso. rewrite E5, E2 in Hlen. discriminate Hlen.
    + rewrite compute_risk_nonempty in Hr by discriminate.
      exists (assessment (r :: rs)).
      split; [unfold ret in Hr; congruence|].
      cbn [assessment window_used]. rewrite Hlen, E5, E2. reflexivity.
Qed.

Lemma window_used_is_available_count_witness :
  exists resp,
    get_latest_telemetry (alg := LeftToRight) (H := insertion_order)
      (Serving table_two_rows) "aircraft-C130-017" 5 =
      ret resp /\
    map id (resp_readings resp) = [3; 1] /\
    resp_window_requested resp = 5 /\
    resp_window_used resp = 2 /\
    exists a, resp_risk resp = Some a /\ window_used a = 2.
Proof.
  destruct (window_used_is_available_count (alg := LeftToRight) (H0 := insertion_order_laws)
              table_two_rows "aircraft-C130-017" 5)
    as (_ & resp & Hg & Hreq & _ & _ & _ & _ & H52);
    [discriminate | lia |].
  exists resp. split; [exact Hg|].
  destruct (H52 eq_refl eq_refl) as (_ & Hw & Ha).
  split; [|split; [exact Hreq | split; [exact Hw | exact Ha]]].
  vm_compute in Hg. unfold ret in Hg.
  injection Hg as Hg. rewrite <- Hg. reflexivity.
Defined.

(* ===================================================================== *)
(** ** Further properties of the risk evaluator *)
(* ===================================================================== *)

(** The vibration block as a function of its two comparisons. *)
Lemma score_vibration_cases (v : float) (rp : Z) :
  (PyFloat.gtb v (PyFloat.decimal 35 1) = true ->
   score_vibration v rp = rp + 2) /\
  (PyFloat.gtb v (PyFloat.decimal 35 1) = false ->
   PyFloat.gtb v (PyFloat.decimal 25 1) = true ->
   score_vibration v rp = rp + 1) /\
  (PyFloat.gtb v (PyFloat.decimal 35 1) = false ->
   PyFloat.gtb v (PyFloat.decimal 25 1) = false ->
   score_vibration v rp = rp).
Proof.
  unfold score_vibration.
  repeat split; intros H1; try intros H2; rewrite H1; try rewrite H2;
    reflexivity.
Qed.

(** [c < t <= t'] gives [c < t']. *)
Lemma ltb_leb_mono (c t t' : float) :
  PyFloat.ltb c t = true -> PyFloat.leb t t' = true -> PyFloat.ltb c t' = true.
Proof.
  unfold PyFloat.ltb, PyFloat.leb, SFltb, SFleb.
  destruct c as [sc|sc| |sc mc ec], t as [st|st| |st mt et],
           t' as [st'|st'| |st' mt' et']; simpl;
    try congruence;
    repeat match goal with s : bool |- _ => destruct s end; simpl;
    try congruence; cmp_cases.
Qed.

(** X1: the 3.5 and 2.5 thresholds on vibration are strict.  For every non-empty
    window, with [v] its unrounded mean vibration: [v] exactly 3.5 adds 1
    point, [v] exactly 2.5 adds none, [v > 3.5] adds 2, [2.5 < v <= 3.5]
    adds 1, and a [v] that is not above 2.5 adds none. *)
Theorem vibration_thresholds_strict {alg : SumAlgorithm}
    (readings : list Reading) :
  readings <> [] ->
  let v := average vibration_rms readings in
  exists a,
    compute_risk readings = ret (Some a) /\
    mean vibration_rms readings = ret v /\
    risk_points a =
      score_temperature (average temperature_c readings) 0 +
      score_vibration v 0 +
      score_pressure (average pressure_psi readings) 0 /\
    (forall rp,
        (v = PyFloat.decimal 35 1 -> score_vibration v rp = rp + 1) /\
        (v = PyFloat.decimal 25 1 -> score_vibration v rp = rp) /\
        (PyFloat.gtb v (PyFloat.decimal 35 1) = true ->
         score_vibration v rp = rp + 2) /\
        (PyFloat.gtb v (PyFloat.decimal 25 1) = true ->
         PyFloat.leb v (PyFloat.decimal 35 1) = true ->
         score_vibration v rp = rp + 1) /\
        (PyFloat.gtb v (PyFloat.decimal 25 1) = false ->
         score_vibration v rp = rp)).
Proof.
  intros Hne v. exists (assessment readings).
  split; [apply compute_risk_nonempty, Hne|].
  split; [apply mean_nonempty, Hne|].
  split; [apply risk_points_assessment|].
  intros rp.
  destruct (score_vibration_cases v rp) as (H2 & H1 & H0).
  split; [|split; [|split; [|split]]].
  - intros E. apply H1; rewrite E; vm_compute; reflexivity.
  - intros E. apply H0; rewrite E; vm_compute; reflexivity.
  - exact H2.
  - intros Hgt Hle. apply H1; [apply leb_not_gtb, Hle | exact Hgt].
  - intros Hle. apply H0; [|exact Hle].
    destruct (PyFloat.gtb v (PyFloat.decimal 35 1)) eqn:E; [|reflexivity].
    rewrite <- Hle. symmetry. unfold PyFloat.gtb in *.
    apply (ltb_leb_mono (PyFloat.decimal 25 1) (PyFloat.decimal 35 1) v).
    + vm_compute. reflexivity.
    + unfold PyFloat.leb, SFleb. unfold PyFloat.ltb, SFltb in E.
      destruct (SFcompare (PyFloat.decimal 35 1) v) as [[| |]|];
        try discriminate E; reflexivity.
Qed.

Lemma vibration_thresholds_strict_witness :
  window_high <> [] /\
  PyFloat.gtb (average (alg := LeftToRight) vibration_rms window_high) (PyFloat.decimal 35 1) = true /\
  exists a,
    compute_risk (alg := LeftToRight) window_high = ret (Some a) /\
    score_vibration (average (alg := LeftToRight) vibration_rms window_high) 0 = 2.
Proof.
  split; [discriminate|].
  split; [vm_compute; reflexivity|].
  destruct (vibration_thresholds_strict (alg := LeftToRight) window_high) as (a & Ha & _ & _ & Hb);
    [discriminate|].
  exists a. split; [exact Ha|].
  destruct (Hb 0) as (_ & _ & H2 & _).
  apply H2. vm_compute. reflexivity.
Defined.

(** NaN is absorbing for addition and division and fails every comparison. *)
Lemma add_nan_l (x : float) : PyFloat.add S754_nan x = S754_nan.
Proof. reflexivity. Qed.

Lemma add_nan_r (x : float) : PyFloat.add x S754_nan = S754_nan.
Proof. destruct x; reflexivity. Qed.

Lemma fold_add_nan (xs : list float) :
  fold_left PyFloat.add xs S754_nan = S754_nan.
Proof. induction xs as [|x xs IH]; [reflexivity | exact IH]. Qed.

Lemma fold_add_in_nan (xs : list float) :
  In S754_nan xs -> forall acc, fold_left PyFloat.add xs acc = S754_nan.
Proof.
  induction xs as [|x xs IH]; intros Hin acc; [contradiction|].
  cbn [fold_left]. destruct Hin as [E|Hin].
  - subst x. rewrite add_nan_r. apply fold_add_nan.
  - apply IH, Hin.
Qed.

Lemma sum_compensated_nan (xs : list float) :
  In S754_nan xs -> sum_compensated xs = S754_nan.
Proof.
  intros Hin. destruct xs as [|x rest]; [contradiction|].
  unfold sum_compensated.
  rewrite (state_eta (fold_left _ _ _)), compensated_running_sum.
  change (fold_left PyFloat.add rest (PyFloat.add (PyFloat.of_int 0) x))
    with (fold_left PyFloat.add (x :: rest) (PyFloat.of_int 0)).
  rewrite (fold_add_in_nan _ Hin). apply compensated_finish_nan.
Qed.

(** Under either algorithm a NaN item makes the sum NaN. *)
Lemma sum_nan {alg : SumAlgorithm} (xs : list float) :
  In S754_nan xs -> sum xs = S754_nan.
Proof.
  intros Hin. destruct alg; unfold sum.
  - apply fold_add_in_nan, Hin.
  - apply sum_compensated_nan, Hin.
Qed.

Lemma is_nan_eq (x : float) : PyFloat.is_nan x = true -> x = S754_nan.
Proof. destruct x; simpl; congruence. Qed.

Lemma average_nan {alg : SumAlgorithm}
    (metric : Reading -> float) (readings : list Reading)
    (r : Reading) :
  In r readings -> PyFloat.is_nan (metric r) = true ->
  average metric readings = S754_nan.
Proof.
  intros Hin Hnan. unfold average.
  rewrite sum_nan; [reflexivity|].
  rewrite <- (is_nan_eq _ Hnan). apply in_map, Hin.
Qed.

Lemma score_temperature_nan (rp : Z) : score_temperature S754_nan rp = rp.
Proof. reflexivity. Qed.

Lemma score_vibration_nan (rp : Z) : score_vibration S754_nan rp = rp.
Proof. reflexivity. Qed.

Lemma score_pressure_nan (rp : Z) : score_pressure S754_nan rp = rp.
Proof. reflexivity. Qed.

(** X2: A single NaN measurement silences its metric.  If any reading of the
    window has a NaN temperature, the mean temperature is NaN, the
    temperature block adds nothing whatever the other temperatures are, the
    reported temperature average is NaN, and the level cannot be HIGH; the
    same holds for a NaN vibration and a NaN pressure. *)
Theorem nan_reading_silences_metric {alg : SumAlgorithm}
    (readings : list Reading) (r : Reading) :
  In r readings ->
  exists a,
    compute_risk readings = ret (Some a) /\
    (PyFloat.is_nan (temperature_c r) = true ->
     avg_temperature_c (averages a) = S754_nan /\
     risk_points a =
       score_vibration (average vibration_rms readings) 0 +
       score_pressure (average pressure_psi readings) 0 /\
     risk_level a <> "HIGH"%string) /\
    (PyFloat.is_nan (vibration_rms r) = true ->
     avg_vibration_rms (averages a) = S754_nan /\
     risk_points a =
       score_temperature (average temperature_c readings) 0 +
       score_pressure (average pressure_psi readings) 0 /\
     risk_level a <> "HIGH"%string) /\
    (PyFloat.is_nan (pressure_psi r) = true ->
     avg_pressure_psi (averages a) = S754_nan /\
     risk_points a =
       score_temperature (average temperature_c readings) 0 +
       score_vibration (average vibration_rms readings) 0 /\
     risk_level a <> "HIGH"%string).
Proof.
  intros Hin.
  assert (Hne : readings <> []) by (intros E; subst readings; contradiction).
  exists (assessment readings).
  split; [apply compute_risk_nonempty, Hne|].
  pose proof (score_temperature_range (average temperature_c readings)) as Rt.
  pose proof (score_vibration_range (average vibration_rms readings)) as Rv.
  pose proof (score_pressure_range (average pressure_psi readings)) as Rp.
  pose proof (risk_points_assessment readings) as Hsum.
  split; [|split]; intros Hnan;
    pose proof (average_nan _ readings r Hin Hnan) as Eavg;
    (split; [cbn [assessment averages avg_temperature_c avg_vibration_rms
                  avg_pressure_psi]; rewrite Eavg; reflexivity|]);
    rewrite Eavg in Hsum;
    rewrite ?score_temperature_nan, ?score_vibration_nan,
            ?score_pressure_nan in Hsum;
    (split; [lia|]);
    intros Hhigh; apply level_high_iff in Hhigh;
    change (risk_points (assessment readings)) with
      (points_of (average temperature_c readings)
                 (average vibration_rms readings)
                 (average pressure_psi readings)) in Hsum;
    lia.
Qed.

Lemma nan_reading_silences_metric_witness :
  exists a,
    compute_risk (alg := LeftToRight) window_nan_temperature = ret (Some a) /\
    avg_temperature_c (averages a) = S754_nan /\
    risk_points a = 4 /\
    risk_level a = "MEDIUM"%string.
Proof.
  destruct (nan_reading_silences_metric (alg := LeftToRight) window_nan_temperature
              (sample S754_nan (PyFloat.decimal 40 1) (PyFloat.decimal 650 1)))
    as (a & Ha & Ht & _); [right; left; reflexivity|].
  exists a. split; [exact Ha|].
  destruct (Ht eq_refl) as (Hav & Hp & _).
  split; [exact Hav|].
  assert (E : a = assessment (alg := LeftToRight) window_nan_temperature).
  { rewrite compute_risk_nonempty in Ha by discriminate.
    unfold ret in Ha. congruence. }
  split; [rewrite Hp; vm_compute; reflexivity|].
  rewrite E. vm_compute. reflexivity.
Defined.

(** X3: one metric out of band is never enough.  For every non-empty window, if
    two of the three blocks add no point the level is LOW, however extreme
    the third mean is; MEDIUM needs at least two metrics out of their normal
    band; HIGH needs all three out of band, two of them in the top band. *)
Theorem single_metric_stays_low {alg : SumAlgorithm} (readings : list Reading) :
  readings <> [] ->
  let ct := score_temperature (average temperature_c readings) 0 in
  let cv := score_vibration (average vibration_rms readings) 0 in
  let cp := score_pressure (average pressure_psi readings) 0 in
  exists a,
    compute_risk readings = ret (Some a) /\
    risk_points a = ct + cv + cp /\
    ((ct = 0 /\ cv = 0) \/ (ct = 0 /\ cp = 0) \/ (cv = 0 /\ cp = 0) ->
     risk_level a = "LOW"%string) /\
    (risk_level a = "MEDIUM"%string ->
     (1 <= ct /\ 1 <= cv) \/ (1 <= ct /\ 1 <= cp) \/ (1 <= cv /\ 1 <= cp)) /\
    (risk_level a = "HIGH"%string ->
     1 <= ct /\ 1 <= cv /\ 1 <= cp /\
     ((ct = 2 /\ cv = 2) \/ (ct = 2 /\ cp = 2) \/ (cv = 2 /\ cp = 2))).
Proof.
  intros Hne ct cv cp. exists (assessment readings).
  split; [apply compute_risk_nonempty, Hne|].
  pose proof (score_temperature_range (average temperature_c readings)) as Rt.
  pose proof (score_vibration_range (average vibration_rms readings)) as Rv.
  pose proof (score_pressure_range (average pressure_psi readings)) as Rp.
  pose proof (risk_points_assessment readings) as Hsum.
  fold ct cv cp in Rt, Rv, Rp, Hsum.
  split; [exact Hsum|].
  cbn [assessment risk_level].
  change (points_of _ _ _) with (risk_points (assessment readings)).
  rewrite Hsum. clearbody ct cv cp.
  split; [|split].
  - intros H. apply level_low_iff. lia.
  - intros H. apply level_medium_iff in H. lia.
  - intros H. apply level_high_iff in H. lia.
Qed.

Lemma single_metric_stays_low_witness :
  window_hot_only <> [] /\
  score_temperature (average (alg := LeftToRight) temperature_c window_hot_only) 0 = 2 /\
  exists a,
    compute_risk (alg := LeftToRight) window_hot_only = ret (Some a) /\
    risk_level a = "LOW"%string.
Proof.
  split; [discriminate|].
  split; [vm_compute; reflexivity|].
  destruct (single_metric_stays_low (alg := LeftToRight) window_hot_only)
    as (a & Ha & _ & Hlow & _); [discriminate|].
  exists a. split; [exact Ha|].
  apply Hlow. right. right. split; vm_compute; reflexivity.
Defined.

Lemma score_temperature_mono (t t' : float) (rp : Z) :
  PyFloat.leb t t' = true ->
  score_temperature t rp <= score_temperature t' rp.
Proof.
  intros Hle. unfold score_temperature, gt_int, PyFloat.gtb.
  pose proof (fun c H => ltb_leb_mono c t t' H Hle) as M.
  destruct (PyFloat.ltb (PyFloat.of_int 95) t) eqn:E95.
  - rewrite (M _ E95). lia.
  - destruct (PyFloat.ltb (PyFloat.of_int 85) t) eqn:E85.
    + rewrite (M _ E85). destruct (PyFloat.ltb (PyFloat.of_int 95) t'); lia.
    + destruct (PyFloat.ltb (PyFloat.of_int 95) t'); [lia|].
      destruct (PyFloat.ltb (PyFloat.of_int 85) t'); lia.
Qed.

Lemma score_vibration_mono (v v' : float) (rp : Z) :
  PyFloat.leb v v' = true ->
  score_vibration v rp <= score_vibration v' rp.
Proof.
  intros Hle. unfold score_vibration, PyFloat.gtb.
  pose proof (fun c H => ltb_leb_mono c v v' H Hle) as M.
  destruct (PyFloat.ltb (PyFloat.decimal 35 1) v) eqn:E35.
  - rewrite (M _ E35). lia.
  - destruct (PyFloat.ltb (PyFloat.decimal 25 1) v) eqn:E25.
    + rewrite (M _ E25). destruct (PyFloat.ltb (PyFloat.decimal 35 1) v'); lia.
    + destruct (PyFloat.ltb (PyFloat.decimal 35 1) v'); [lia|].
      destruct (PyFloat.ltb (PyFloat.decimal 25 1) v'); lia.
Qed.

(** X4: temperature and vibration are scored monotonically.  For two non-empty
    windows with the same mean pressure, if the second has a mean
    temperature and a mean vibration at least those of the first, its
    [risk_points] are at least those of the first. *)
Theorem hotter_and_rougher_scores_no_less {alg : SumAlgorithm}
    (l l' : list Reading) :
  l <> [] -> l' <> [] ->
  PyFloat.leb (average temperature_c l) (average temperature_c l') = true ->
  PyFloat.leb (average vibration_rms l) (average vibration_rms l') = true ->
  average pressure_psi l = average pressure_psi l' ->
  exists a a',
    compute_risk l = ret (Some a) /\
    compute_risk l' = ret (Some a') /\
    risk_points a <= risk_points a'.
Proof.
  intros Hl Hl' Ht Hv Hp.
  exists (assessment l), (assessment l').
  split; [apply compute_risk_nonempty, Hl|].
  split; [apply compute_risk_nonempty, Hl'|].
  rewrite !risk_points_assessment, Hp.
  pose proof (score_temperature_mono _ _ 0 Ht).
  pose proof (score_vibration_mono _ _ 0 Hv). lia.
Qed.

Lemma hotter_and_rougher_scores_no_less_witness :
  exists a a',
    compute_risk (alg := LeftToRight) window_cool = ret (Some a) /\
    compute_risk (alg := LeftToRight) window_warm = ret (Some a') /\
    risk_points a <= risk_points a'.
Proof.
  apply (hotter_and_rougher_scores_no_less (alg := LeftToRight) window_cool window_warm);
    try discriminate; vm_compute; reflexivity.
Defined.

(** X5: the first two readings of a window can be exchanged: under either
    summation algorithm, for every window of any length, putting its second
    reading first leaves the whole assessment unchanged. *)
Theorem compute_risk_swap_first_two {alg : SumAlgorithm}
    (r1 r2 : Reading) (rest : list Reading) :
  compute_risk (r1 :: r2 :: rest) = compute_risk (r2 :: r1 :: rest).
Proof.
  apply compute_risk_by_sums; [reflexivity| | |]; cbn [map];
    apply sum_swap_first_two.
Qed.

(** X6: score and level agree.  For every non-empty window the returned
    [risk_score] lies between 0.0 and 1.0, the level is LOW exactly when the
    score is at most 0.33 and HIGH exactly when it is at least 0.83. *)
Theorem risk_score_matches_level {alg : SumAlgorithm}
    (readings : list Reading) :
  readings <> [] ->
  exists a,
    compute_risk readings = ret (Some a) /\
    PyFloat.leb (PyFloat.decimal 0 1) (risk_score a) = true /\
    PyFloat.leb (risk_score a) (PyFloat.decimal 10 1) = true /\
    (risk_level a = "LOW"%string <->
     PyFloat.leb (risk_score a) (PyFloat.decimal 33 2) = true) /\
    (risk_level a = "HIGH"%string <->
     PyFloat.leb (PyFloat.decimal 83 2) (risk_score a) = true).
Proof.
  intros Hne. exists (assessment readings).
  split; [apply compute_risk_nonempty, Hne|].
  pose proof (points_of_range (average temperature_c readings)
                (average vibration_rms readings)
                (average pressure_psi readings)) as Hp.
  cbn [assessment risk_score risk_level].
  set (p := points_of _ _ _) in *.
  assert (E : p = 0 \/ p = 1 \/ p = 2 \/ p = 3 \/ p = 4 \/ p = 5 \/ p = 6)
    by lia.
  clearbody p.
  destruct E as [E|[E|[E|[E|[E|[E|E]]]]]]; subst p;
    (split; [vm_compute; reflexivity|]);
    (split; [vm_compute; reflexivity|]);
    split; split; intros H; vm_compute in H |- *;
      try reflexivity; try discriminate H.
Qed.

Lemma risk_score_matches_level_witness :
  window_high <> [] /\
  exists a,
    compute_risk (alg := LeftToRight) window_high = ret (Some a) /\
    risk_level a = "HIGH"%string /\
    PyFloat.leb (PyFloat.decimal 83 2) (risk_score a) = true.
Proof.
  split; [discriminate|].
  destruct (risk_score_matches_level (alg := LeftToRight) window_high)
    as (a & Ha & _ & _ & _ & Hhigh); [discriminate|].
  exists a. split; [exact Ha|].
  assert (E : a = assessment (alg := LeftToRight) window_high).
  { rewrite compute_risk_nonempty in Ha by discriminate.
    unfold ret in Ha. congruence. }
  assert (HL : risk_level a = "HIGH"%string)
    by (rewrite E; vm_compute; reflexivity).
  split; [exact HL | apply Hhigh, HL].
Defined.

(* ===================================================================== *)
(** ** Finite readings never average to NaN *)
(* ===================================================================== *)

Section NoNaN.

Variables prec emax : Z.

Lemma shr_1_nonneg (mrs : shr_record) :
  0 <= shr_m mrs -> 0 <= shr_m (shr_1 mrs).
Proof.
  destruct mrs as [m r s]. simpl.
  destruct m as [|[p|p|]|[p|p|]]; simpl; lia.
Qed.

Lemma iter_shr_1_nonneg (p : positive) :
  forall mrs, 0 <= shr_m mrs -> 0 <= shr_m (iter_pos shr_1 p mrs).
Proof.
  induction p as [p IH|p IH|]; intros mrs H; simpl.
  - apply IH, IH, shr_1_nonneg, H.
  - apply IH, IH, H.
  - apply shr_1_nonneg, H.
Qed.

Lemma shr_fexp_nonneg (m e : Z) (l : location) :
  0 <= m -> 0 <= shr_m (fst (shr_fexp prec emax m e l)).
Proof.
  intros Hm. unfold shr_fexp, shr.
  assert (H0 : 0 <= shr_m (shr_record_of_loc m l))
    by (destruct l as [|[| |]]; exact Hm).
  destruct (fexp prec emax (Zdigits2 m + e) - e); simpl;
    [exact H0 | apply iter_shr_1_nonneg, H0 | exact H0].
Qed.

Lemma round_nearest_even_nonneg (m : Z) (l : location) :
  0 <= m -> 0 <= round_nearest_even m l.
Proof.
  intros Hm. destruct l as [|[| |]]; simpl; try lia.
  destruct (Z.even m); lia.
Qed.

(** Rounding a non-negative mantissa never yields NaN. *)
Lemma binary_round_aux_not_nan (sx : bool) (mx ex : Z) (lx : location) :
  0 <= mx ->
  PyFloat.is_nan (binary_round_aux prec emax sx mx ex lx) = false.
Proof.
  intros Hm. unfold binary_round_aux.
  pose proof (shr_fexp_nonneg mx ex lx Hm) as H1.
  destruct (shr_fexp prec emax mx ex lx) as [mrs' e']. simpl in H1.
  pose proof (shr_fexp_nonneg _ e' loc_Exact
                (round_nearest_even_nonneg _ (loc_of_shr_record mrs') H1)) as H2.
  destruct (shr_fexp prec emax _ e' loc_Exact) as [mrs'' e'']. simpl in H2.
  destruct (shr_m mrs'') as [|m|m]; [reflexivity| |lia].
  destruct (e'' <=? emax - prec); reflexivity.
Qed.

Lemma binary_normalize_not_nan (m e : Z) (sz : bool) :
  PyFloat.is_nan (binary_normalize prec emax m e sz) = false.
Proof.
  destruct m as [|p|p]; [reflexivity| |]; unfold binary_normalize, binary_round;
    destruct (shl_align _ _ _) as [mz ez];
    apply binary_round_aux_not_nan; lia.
Qed.

(** A sum stays a number as long as what is added is finite. *)
Lemma SFadd_finite_not_nan (x y : spec_float) :
  PyFloat.is_nan x = false -> PyFloat.is_finite y = true ->
  PyFloat.is_nan (SFadd prec emax x y) = false.
Proof.
  destruct x as [sx|sx| |sx mx ex], y as [sy|sy| |sy my ey];
    simpl; intros Hx Hy; try discriminate; try reflexivity.
  - destruct sx, sy; reflexivity.
  - apply binary_normalize_not_nan.
Qed.

(** A number divided by a finite non-zero float is a number. *)
Lemma SFdiv_finite_not_nan (x : spec_float) (sd : bool) (md : positive)
    (ed : Z) :
  PyFloat.is_nan x = false ->
  PyFloat.is_nan (SFdiv prec emax x (S754_finite sd md ed)) = false.
Proof.
  destruct x as [sx|sx| |sx mx ex]; simpl; intros Hx;
    try discriminate; try reflexivity.
  unfold SFdiv_core_binary.
  set (e' := Z.min _ _). set (m' := match ex - ed - e' with
                                    | 0 => Z.pos mx
                                    | Z.pos _ => Z.shiftl (Z.pos mx) (ex - ed - e')
                                    | Z.neg _ => 0
                                    end).
  assert (Hm' : 0 <= m').
  { unfold m'. destruct (ex - ed - e') eqn:E; try lia.
    apply Z.shiftl_nonneg. lia. }
  pose proof (Z.div_pos m' (Z.pos md) Hm' eq_refl) as Hq.
  unfold Z.div in Hq.
  destruct (Z.div_eucl m' (Z.pos md)) as [q r].
  apply binary_round_aux_not_nan, Hq.
Qed.

End NoNaN.

Lemma add_finite_not_nan (x y : float) :
  PyFloat.is_nan x = false -> PyFloat.is_finite y = true ->
  PyFloat.is_nan (PyFloat.add x y) = false.
Proof. apply SFadd_finite_not_nan. Qed.

Lemma div_finite_not_nan (x : float) (sd : bool) (md : positive) (ed : Z) :
  PyFloat.is_nan x = false ->
  PyFloat.is_nan (PyFloat.div x (S754_finite sd md ed)) = false.
Proof. apply SFdiv_finite_not_nan. Qed.

Lemma round2_not_nan (x : float) :
  PyFloat.is_nan x = false -> PyFloat.is_nan (PyFloat.round2 x) = false.
Proof.
  destruct x as [s|s| |s m e]; intros Hx; try exact Hx.
  unfold PyFloat.round2.
  destruct (PyFloat.scaled_half_even m e) as [|n|n]; try reflexivity.
  apply (div_finite_not_nan (S754_finite s n 0) false 100 0). reflexivity.
Qed.

Lemma fold_add_finite_not_nan (xs : list float) :
  forall acc,
    PyFloat.is_nan acc = false ->
    Forall (fun x => PyFloat.is_finite x = true) xs ->
    PyFloat.is_nan (fold_left PyFloat.add xs acc) = false.
Proof.
  induction xs as [|x xs IH]; intros acc Hacc Hall; [exact Hacc|].
  inversion Hall as [|? ? Hx Hxs]; subst. cbn [fold_left].
  apply IH; [apply add_finite_not_nan; assumption | exact Hxs].
Qed.

(** The compensation is only added when it is finite, so it cannot turn a
    number into NaN. *)
Lemma compensated_finish_not_nan (f c : float) :
  PyFloat.is_nan f = false ->
  PyFloat.is_nan (compensated_finish (f, c)) = false.
Proof.
  intros Hf. unfold compensated_finish.
  destruct c as [s|s| |s m e]; try exact Hf.
  apply add_finite_not_nan; [exact Hf | reflexivity].
Qed.

(** Under either algorithm the sum of finite items is a number. *)
Lemma sum_finite_not_nan {alg : SumAlgorithm} (xs : list float) :
  Forall (fun x => PyFloat.is_finite x = true) xs ->
  PyFloat.is_nan (sum xs) = false.
Proof.
  intros Hall. destruct alg; unfold sum.
  - apply fold_add_finite_not_nan; [reflexivity | exact Hall].
  - unfold sum_compensated. destruct xs as [|x rest]; [reflexivity|].
    rewrite (state_eta (fold_left _ _ _)), compensated_running_sum.
    apply compensated_finish_not_nan.
    apply (fold_add_finite_not_nan (x :: rest)); [reflexivity | exact Hall].
Qed.

(** [float(n)] for a window length between 1 and 50. *)
Lemma of_int_small (n : nat) :
  (1 <= n <= 50)%nat ->
  exists m e, PyFloat.of_int (Z.of_nat n) = S754_finite false m e.
Proof.
  intros Hn. pose proof of_int_window_lengths as H.
  rewrite forallb_forall in H. specialize (H n).
  assert (Hin : In n (seq 1 50)) by (apply in_seq; lia).
  specialize (H Hin).
  destruct (PyFloat.of_int (Z.of_nat n)) as [s|s| |[|] m e];
    try discriminate H.
  exists m, e. reflexivity.
Qed.

Lemma average_finite_not_nan {alg : SumAlgorithm} (metric : Reading -> float)
    (readings : list Reading) :
  (1 <= List.length readings <= 50)%nat ->
  Forall (fun r => PyFloat.is_finite (metric r) = true) readings ->
  PyFloat.is_nan (average metric readings) = false.
Proof.
  intros Hn Hall. unfold average, len.
  destruct (of_int_small _ Hn) as (m & e & E). rewrite E.
  apply div_finite_not_nan, sum_finite_not_nan.
  apply Forall_map. exact Hall.
Qed.

Lemma finite_reading_metrics (readings : list Reading) :
  forallb finite_reading readings = true ->
  Forall (fun r => PyFloat.is_finite (temperature_c r) = true) readings /\
  Forall (fun r => PyFloat.is_finite (vibration_rms r) = true) readings /\
  Forall (fun r => PyFloat.is_finite (pressure_psi r) = true) readings.
Proof.
  intros H. rewrite forallb_forall in H.
  repeat split; apply Forall_forall; intros r Hr; specialize (H r Hr);
    unfold finite_reading, finite_metric in H;
    repeat (apply andb_prop in H; destruct H as [H ?]);
    repeat match goal with
      | X : (_ && _) = true |- _ => apply andb_prop in X; destruct X
      end; assumption.
Qed.

(** X7: finite measurements never produce a NaN.  For every non-empty window of
    at most 50 readings (the largest window the endpoint builds) whose
    measurements are all finite floats, none of the three means is NaN and
    none of the three reported averages is NaN, even when a sum overflows.
    The finiteness is needed: a window holding [+inf] and [-inf] averages to
    NaN. *)
Theorem finite_readings_no_nan {alg : SumAlgorithm} (readings : list Reading) :
  readings <> [] ->
  (List.length readings <= 50)%nat ->
  forallb finite_reading readings = true ->
  exists a,
    compute_risk readings = ret (Some a) /\
    PyFloat.is_nan (average temperature_c readings) = false /\
    PyFloat.is_nan (average vibration_rms readings) = false /\
    PyFloat.is_nan (average pressure_psi readings) = false /\
    PyFloat.is_nan (avg_temperature_c (averages a)) = false /\
    PyFloat.is_nan (avg_vibration_rms (averages a)) = false /\
    PyFloat.is_nan (avg_pressure_psi (averages a)) = false /\
    exists w a',
      compute_risk w = ret (Some a') /\
      avg_temperature_c (averages a') = S754_nan.
Proof.
  intros Hne Hlen Hfin. exists (assessment readings).
  split; [apply compute_risk_nonempty, Hne|].
  assert (Hn : (1 <= List.length readings <= 50)%nat).
  { destruct readings; [congruence | simpl in *; lia]. }
  destruct (finite_reading_metrics readings Hfin) as (Ft & Fv & Fp).
  pose proof (average_finite_not_nan temperature_c readings Hn Ft) as Nt.
  pose proof (average_finite_not_nan vibration_rms readings Hn Fv) as Nv.
  pose proof (average_finite_not_nan pressure_psi readings Hn Fp) as Np.
  repeat (split; [assumption|]).
  cbn [assessment averages avg_temperature_c avg_vibration_rms
       avg_pressure_psi].
  repeat (split; [apply round2_not_nan; assumption|]).
  exists window_opposite_infinities,
         (assessment window_opposite_infinities).
  split; [apply compute_risk_nonempty; discriminate|].
  clear. destruct alg; vm_compute; reflexivity.
Qed.

Lemma finite_readings_no_nan_witness :
  window_overflow <> [] /\
  forallb finite_reading window_overflow = true /\
  exists a,
    compute_risk (alg := LeftToRight) window_overflow = ret (Some a) /\
    avg_temperature_c (averages a) = S754_infinity false /\
    PyFloat.is_nan (avg_temperature_c (averages a)) = false.
Proof.
  split; [discriminate|].
  split; [vm_compute; reflexivity|].
  destruct (finite_readings_no_nan (alg := LeftToRight) window_overflow)
    as (a & Ha & _ & _ & _ & Nt & _);
    [discriminate | simpl; lia | vm_compute; reflexivity |].
  exists a. split; [exact Ha|]. split; [|exact Nt].
  assert (E : a = assessment (alg := LeftToRight) window_overflow).
  { rewrite compute_risk_nonempty in Ha by discriminate.
    unfold ret in Ha. congruence. }
  rewrite E. vm_compute. reflexivity.
Defined.

(* ===================================================================== *)
(** ** The window the endpoint builds *)
(* ===================================================================== *)

Lemma reverse_tie_order_perm (rows : list Row) :
  Permutation rows (sort_desc (rev rows)).
Proof.
  eapply perm_trans; [apply Permutation_rev | apply sort_desc_perm].
Qed.

#[export] Instance reverse_tie_order_laws : @OrderByLaws reverse_tie_order.
Proof.
  split; [exact reverse_tie_order_perm|].
  intros rows. apply sort_desc_sorted.
Qed.

Lemma recorded_at_desc_firstn (n : nat) (l : list Row) :
  recorded_at_desc l -> recorded_at_desc (firstn n l).
Proof.
  revert l. induction n as [|n IH]; intros [|r l]; simpl; try tauto.
  intros (Hall & Hl). split; [|apply IH, Hl].
  rewrite Forall_forall in Hall |- *. intros x Hx.
  apply Hall. rewrite <- (firstn_skipn n l). apply in_or_app. left. exact Hx.
Qed.

Lemma recorded_at_desc_app (l1 l2 : list Row) :
  recorded_at_desc (l1 ++ l2) ->
  forall x y, In x l1 -> In y l2 ->
              row_recorded_at y <= row_recorded_at x.
Proof.
  induction l1 as [|r l1 IH]; simpl; intros H x y Hx Hy; [contradiction|].
  destruct H as (Hall & Hl). destruct Hx as [E|Hx].
  - subst x. rewrite Forall_forall in Hall. apply Hall.
    apply in_or_app. right. exact Hy.
  - apply (IH Hl x y Hx Hy).
Qed.

Lemma select_latest_split `{OrderByLaws} (table : list Row) (asset : string)
    (limit : Z) :
  let stored := filter (fun r => String.eqb (row_asset_id r) asset) table in
  let rows := select_latest table asset limit in
  let rest := skipn (Z.to_nat limit) (order_by_recorded_at_desc stored) in
  Permutation stored (rows ++ rest) /\
  recorded_at_desc rows /\
  (forall x y, In x rows -> In y rest ->
               row_recorded_at y <= row_recorded_at x).
Proof.
  intros stored rows rest. unfold rows, rest, select_latest. fold stored.
  pose proof (order_by_permutes stored) as HP.
  pose proof (order_by_sorts stored) as HS.
  split; [rewrite firstn_skipn; exact HP|].
  split; [apply recorded_at_desc_firstn, HS|].
  apply recorded_at_desc_app. rewrite firstn_skipn. exact HS.
Qed.

(** X8: the window is the most recent history of the requested asset.  For a
    valid request on a reachable store, whatever the store's tie-break, the
    returned readings are copies of stored rows of the requested asset and
    of no other, in descending [recorded_at] order, at most [limit] (so at
    most 50) of them; together with the rows left out they make up exactly
    the asset's stored rows, and no row left out is newer than a row
    returned. *)
Theorem window_is_most_recent {alg : SumAlgorithm} `{OrderByLaws}
    (table : list Row) (asset : string) (limit : Z) :
  asset <> ""%string -> 1 <= limit <= 50 ->
  let stored := filter (fun r => String.eqb (row_asset_id r) asset) table in
  exists resp rows rest,
    get_latest_telemetry (Serving table) asset limit = ret resp /\
    resp_readings resp = map reading_of_row rows /\
    Permutation stored (rows ++ rest) /\
    Forall (fun r => In r table /\ row_asset_id r = asset) rows /\
    Forall (fun r => asset_id r = asset) (resp_readings resp) /\
    recorded_at_desc rows /\
    len (resp_readings resp) <= limit <= 50 /\
    (forall x y, In x rows -> In y rest ->
                 row_recorded_at y <= row_recorded_at x).
Proof.
  intros Ha Hl stored.
  destruct (get_latest_telemetry_ok table asset limit Ha Hl) as (risk & _ & Hg).
  destruct (select_latest_split table asset limit) as (HP & HS & Hnew).
  fold stored in HP.
  eexists. exists (select_latest table asset limit).
  exists (skipn (Z.to_nat limit) (order_by_recorded_at_desc stored)).
  split; [exact Hg|].
  cbn [resp_readings].
  assert (Hrows : Forall (fun r => In r table /\ row_asset_id r = asset)
                         (select_latest table asset limit)).
  { apply Forall_forall. intros r Hr.
    assert (Hs : In r stored).
    { apply (Permutation_in r (Permutation_sym HP)).
      apply in_or_app. left. exact Hr. }
    unfold stored in Hs. apply filter_In in Hs. destruct Hs as (Hin & He).
    split; [exact Hin | apply String.eqb_eq, He]. }
  split; [reflexivity|].
  split; [exact HP|].
  split; [exact Hrows|].
  split.
  { apply Forall_map. eapply Forall_impl; [|exact Hrows].
    intros r (_ & E). exact E. }
  split; [exact HS|].
  split; [|exact Hnew].
  rewrite len_map, select_latest_len by lia. lia.
Qed.

Lemma window_is_most_recent_witness :
  exists resp rows rest,
    get_latest_telemetry (alg := LeftToRight) (H := insertion_order)
      (Serving table_two_rows) "aircraft-C130-017" 1 =
      ret resp /\
    map id (resp_readings resp) = [3] /\
    resp_readings resp = map reading_of_row rows /\
    Forall (fun r => asset_id r = "aircraft-C130-017"%string)
           (resp_readings resp) /\
    (forall x y, In x rows -> In y rest ->
                 row_recorded_at y <= row_recorded_at x).
Proof.
  destruct (window_is_most_recent (alg := LeftToRight) (H0 := insertion_order_laws)
              table_two_rows "aircraft-C130-017" 1)
    as (resp & rows & rest & Hg & Hr & _ & _ & Has & _ & _ & Hnew);
    [discriminate | lia |].
  exists resp, rows, rest.
  split; [exact Hg|].
  split; [|split; [exact Hr | split; [exact Has | exact Hnew]]].
  vm_compute in Hg. unfold ret in Hg. injection Hg as Hg.
  rewrite <- Hg. reflexivity.
Defined.

Lemma compute_risk_none {alg : SumAlgorithm} (readings : list Reading) :
  compute_risk readings = ret None <-> readings = [].
Proof.
  destruct readings as [|r rs].
  - split; reflexivity.
  - rewrite compute_risk_nonempty by discriminate.
    split; intros H; discriminate H.
Qed.

Lemma request_rejected (asset : string) (limit : Z) :
  ~ (asset <> ""%string /\ 1 <= limit <= 50) ->
  (String.length asset =? 0)%nat || (limit <? 1) || (50 <? limit) = true.
Proof.
  intros Hinv. destruct asset as [|c rest]; [reflexivity|]. simpl.
  destruct (Z.ltb_spec limit 1); [reflexivity|].
  destruct (Z.ltb_spec 50 limit); [reflexivity|].
  exfalso. apply Hinv. split; [discriminate | lia].
Qed.

(** X9: the outcomes of the retrieval endpoint.  A request with an empty
    [asset_id] or a [limit] outside 1..50 never reaches the body: the
    framework raises its validation error, whatever the store holds.  For a
    valid request, a store that cannot be reached or whose statements fail
    makes the endpoint raise status 500 with the detail ["db_read_failed: "]
    followed by the driver's text, never an empty window.  When the
    statements run, nothing else in the body fails: the endpoint returns a
    response, in which [count] equals [window_used] and the risk is null
    exactly when the window is empty, that is exactly when the asset has no
    stored row. *)
Theorem get_latest_telemetry_outcomes {alg : SumAlgorithm} `{OrderByLaws}
    (db : Store) (asset : string) (limit : Z) :
  (~ (asset <> ""%string /\ 1 <= limit <= 50) ->
   get_latest_telemetry db asset limit = raise RequestValidationError) /\
  (asset <> ""%string /\ 1 <= limit <= 50 ->
   (forall error, db = Unreachable error \/ db = Failing error ->
      get_latest_telemetry db asset limit =
      raise (HTTPException 500 ("db_read_failed: " ++ error))) /\
   (forall table, db = Serving table ->
      exists resp,
        get_latest_telemetry db asset limit = ret resp /\
        resp_count resp = resp_window_used resp /\
        (resp_risk resp = None <-> resp_readings resp = []) /\
        (resp_risk resp = None <->
         filter (fun r => String.eqb (row_asset_id r) asset) table = []))).
Proof.
  split.
  - intros Hinv. unfold get_latest_telemetry.
    rewrite (request_rejected asset limit Hinv). reflexivity.
  - intros (Ha & Hl). split.
    + intros error Hdb.
      apply get_latest_telemetry_store_down; assumption.
    + intros table E. subst db.
      destruct (get_latest_telemetry_ok table asset limit Ha Hl)
        as (risk & Hr & Hg).
      eexists. split; [exact Hg|].
      cbn [resp_count resp_window_used resp_risk resp_readings].
      split; [reflexivity|].
      assert (Hnone : risk = None <->
                      map reading_of_row (select_latest table asset limit) = []).
      { rewrite <- compute_risk_none, Hr. unfold ret.
        split; intros E; [rewrite E; reflexivity | congruence]. }
      split; [exact Hnone|].
      rewrite Hnone.
      pose proof (select_latest_len table asset limit ltac:(lia)) as Hlen.
      rewrite <- (len_map reading_of_row) in Hlen.
      unfold len in Hlen.
      split; intros E.
      * rewrite E in Hlen. simpl in Hlen.
        destruct (filter _ table); [reflexivity | simpl in Hlen; lia].
      * rewrite E in Hlen. simpl in Hlen.
        destruct (map reading_of_row _); [reflexivity | simpl in Hlen; lia].
Qed.

Lemma get_latest_telemetry_outcomes_witness :
  get_latest_telemetry (alg := LeftToRight) (H := insertion_order)
    (Serving table_two_rows) "aircraft-C130-017" 51 =
    raise RequestValidationError /\
  get_latest_telemetry (alg := LeftToRight) (H := insertion_order)
    (Failing "relation does not exist") "aircraft-C130-017" 5 =
    raise (HTTPException 500 "db_read_failed: relation does not exist") /\
  exists resp,
    get_latest_telemetry (alg := LeftToRight) (H := insertion_order)
      (Serving table_two_rows) "tank-9" 5 = ret resp /\
    resp_risk resp = None.
Proof.
  split; [|split].
  - apply (get_latest_telemetry_outcomes (alg := LeftToRight)
             (H0 := insertion_order_laws)
             (Serving table_two_rows) "aircraft-C130-017" 51).
    intros (_ & Hl). lia.
  - destruct (get_latest_telemetry_outcomes (alg := LeftToRight)
                (H0 := insertion_order_laws)
                (Failing "relation does not exist") "aircraft-C130-017" 5)
      as (_ & Hvalid).
    destruct (Hvalid ltac:(split; [discriminate | lia])) as (Hfail & _).
    apply (Hfail "relation does not exist"%string). right. reflexivity.
  - destruct (get_latest_telemetry_outcomes (alg := LeftToRight)
                (H0 := insertion_order_laws)
                (Serving table_two_rows) "tank-9" 5) as (_ & Hvalid).
    destruct (Hvalid ltac:(split; [discriminate | lia])) as (_ & Hok).
    destruct (Hok table_two_rows eq_refl) as (resp & Hg & _ & _ & Hnone).
    exists resp. split; [exact Hg|]. apply Hnone. reflexivity.
Defined.

(** Two descending arrangements of the same rows coincide when no two rows
    share a timestamp. *)
Lemma recorded_at_desc_unique (l1 : list Row) :
  forall l2,
    recorded_at_desc l1 -> recorded_at_desc l2 -> Permutation l1 l2 ->
    NoDup (map row_recorded_at l1) -> l1 = l2.
Proof.
  induction l1 as [|x l1 IH]; intros l2 D1 D2 HP ND.
  - apply Permutation_nil in HP. subst l2. reflexivity.
  - destruct l2 as [|y l2];
      [apply Permutation_sym, Permutation_nil in HP; discriminate HP|].
    destruct D1 as (A1 & D1). destruct D2 as (A2 & D2).
    inversion ND as [|? ? Hnin ND']; subst.
    assert (Exy : x = y).
    { assert (Hy : In y (x :: l1))
        by (apply (Permutation_in y (Permutation_sym HP)); left; reflexivity).
      destruct Hy as [E|Hy]; [exact E|].
      assert (Hx : In x (y :: l2))
        by (apply (Permutation_in x HP); left; reflexivity).
      destruct Hx as [E|Hx]; [symmetry; exact E|].
      rewrite Forall_forall in A1, A2.
      pose proof (A1 y Hy). pose proof (A2 x Hx).
      exfalso. apply Hnin.
      replace (row_recorded_at x) with (row_recorded_at y) by lia.
      apply in_map, Hy. }
    subst y. f_equal.
    apply IH; [exact D1 | exact D2 | | exact ND'].
    apply (Permutation_cons_inv HP).
Qed.

(** X10: the store's tie-break matters only for ties.  If no two stored rows
    of the asset share a [recorded_at], any two orderings that sort by
    descending [recorded_at] make the endpoint return the same response.
    With equal timestamps they need not, under either summation algorithm:
    on four rows stored at the same instant with temperatures
    [1e308, 1e308, -1e308, -1e308] one ordering makes the level MEDIUM and
    another LOW. *)
Theorem tie_break_matters_only_for_ties {alg : SumAlgorithm} (O1 O2 : OrderBy)
    (L1 : @OrderByLaws O1) (L2 : @OrderByLaws O2)
    (db : Store) (asset : string) (limit : Z) :
  (forall table, db = Serving table ->
     NoDup (map row_recorded_at
              (filter (fun r => String.eqb (row_asset_id r) asset) table))) ->
  get_latest_telemetry (H := O1) db asset limit =
  get_latest_telemetry (H := O2) db asset limit /\
  exists r1 r2 a1 a2,
    get_latest_telemetry (H := insertion_order)
      (Serving table_overflow_same_instant) "aircraft-C130-017" 5 = ret r1 /\
    get_latest_telemetry (H := reverse_tie_order)
      (Serving table_overflow_same_instant) "aircraft-C130-017" 5 = ret r2 /\
    resp_risk r1 = Some a1 /\ resp_risk r2 = Some a2 /\
    risk_level a1 = "MEDIUM"%string /\ risk_level a2 = "LOW"%string.
Proof.
  intros ND. split.
  - destruct db as [error|error|table]; [reflexivity | reflexivity |].
    specialize (ND table eq_refl).
    unfold get_latest_telemetry.
    destruct ((String.length asset =? 0)%nat || (limit <? 1) || (50 <? limit));
      [reflexivity|].
    assert (E : select_latest (H := O1) table asset limit =
                select_latest (H := O2) table asset limit).
    { unfold select_latest. f_equal.
      set (stored := filter _ table) in *.
      pose proof (@order_by_permutes O1 L1 stored) as P1.
      pose proof (@order_by_permutes O2 L2 stored) as P2.
      apply recorded_at_desc_unique.
      - apply (@order_by_sorts O1 L1).
      - apply (@order_by_sorts O2 L2).
      - eapply perm_trans; [apply Permutation_sym, P1 | exact P2].
      - apply (Permutation_NoDup (Permutation_map row_recorded_at P1)), ND. }
    unfold latest_body. cbn [bind ret]. rewrite E. reflexivity.
  - clear. destruct alg.
    + eexists. eexists. eexists. eexists.
      split; [vm_compute; reflexivity|].
      split; [vm_compute; reflexivity|].
      cbn [resp_risk].
      split; [reflexivity|]. split; [reflexivity|].
      split; reflexivity.
    + eexists. eexists. eexists. eexists.
      split; [vm_compute; reflexivity|].
      split; [vm_compute; reflexivity|].
      cbn [resp_risk].
      split; [reflexivity|]. split; [reflexivity|].
      split; reflexivity.
Qed.

Lemma tie_break_matters_only_for_ties_witness :
  get_latest_telemetry (alg := LeftToRight) (H := insertion_order)
    (Serving table_two_rows) "aircraft-C130-017" 5 =
  get_latest_telemetry (alg := LeftToRight) (H := reverse_tie_order)
    (Serving table_two_rows) "aircraft-C130-017" 5.
Proof.
  apply (tie_break_matters_only_for_ties (alg := LeftToRight)
           insertion_order reverse_tie_order
           insertion_order_laws reverse_tie_order_laws
           (Serving table_two_rows) "aircraft-C130-017" 5).
  intros table E. injection E as <-.
  vm_compute. repeat constructor; simpl; intuition discriminate.
Defined.

(* ===================================================================== *)
(** ** Ingestion followed by retrieval *)
(* ===================================================================== *)

(** A row strictly newer than all the others heads every descending
    arrangement. *)
Lemma newest_row_is_head (stored l : list Row) (row : Row) :
  Permutation (stored ++ [row]) l -> recorded_at_desc l ->
  Forall (fun r => row_recorded_at r < row_recorded_at row) stored ->
  exists l', l = row :: l' /\ Permutation stored l'.
Proof.
  intros HP HD Hnew. destruct l as [|h l'].
  - apply Permutation_sym, Permutation_nil in HP.
    destruct stored; discriminate HP.
  - destruct HD as (Hall & _).
    assert (Hh : In h (stored ++ [row]))
      by (apply (Permutation_in h (Permutation_sym HP)); left; reflexivity).
    assert (Hrow : In row (h :: l'))
      by (apply (Permutation_in row HP), in_or_app; right; left; reflexivity).
    assert (E : h = row).
    { apply in_app_or in Hh. destruct Hh as [Hh|[Hh|[]]];
        [|symmetry; exact Hh].
      destruct Hrow as [E|Hrow]; [exact E|].
      rewrite Forall_forall in Hall, Hnew.
      pose proof (Hall row Hrow). pose proof (Hnew h Hh). lia. }
    subst h. exists l'. split; [reflexivity|].
    apply (Permutation_cons_inv (a := row)).
    eapply perm_trans; [|exact HP].
    apply Permutation_cons_append.
Qed.

Lemma filter_inserted_same (table : list Row) (payload : TelemetryIn)
    (new_id new_ts : Z) :
  filter (fun r => String.eqb (row_asset_id r) (in_asset_id payload))
         (table ++ [inserted_row payload new_id new_ts]) =
  filter (fun r => String.eqb (row_asset_id r) (in_asset_id payload)) table
    ++ [inserted_row payload new_id new_ts].
Proof.
  rewrite filter_app. cbn [filter inserted_row row_asset_id].
  rewrite String.eqb_refl. reflexivity.
Qed.

(** X11: A stored reading is the next one read back.  After a successful
    [create_telemetry] whose generated timestamp is later than every stored
    timestamp of that asset, the response carries the generated id and
    timestamp and the store has gained exactly that row; a following valid
    [get_latest_telemetry] for the asset returns the new reading first, with
    the payload's three measurements, reports [window_used] one more than
    the asset had (capped by [limit]), and always carries a risk
    assessment. *)
Theorem create_then_latest {alg : SumAlgorithm}
    `{OrderByLaws} (table : list Row)
    (payload : TelemetryIn) (new_id new_ts limit : Z) :
  in_asset_id payload <> ""%string -> 1 <= limit <= 50 ->
  Forall (fun r => row_asset_id r = in_asset_id payload ->
                   row_recorded_at r < new_ts) table ->
  let step := create_telemetry (Serving table) payload new_id new_ts in
  let stored :=
    filter (fun r => String.eqb (row_asset_id r) (in_asset_id payload)) table in
  fst step = ret {| created_id := new_id; created_recorded_at := new_ts |} /\
  snd step = Serving (table ++ [inserted_row payload new_id new_ts]) /\
  exists resp older a,
    get_latest_telemetry (snd step) (in_asset_id payload) limit = ret resp /\
    resp_readings resp =
      {| id := new_id; asset_id := in_asset_id payload;
         temperature_c := in_temperature_c payload;
         vibration_rms := in_vibration_rms payload;
         pressure_psi := in_pressure_psi payload;
         recorded_at := new_ts |} :: older /\
    resp_window_used resp = Z.min limit (len stored + 1) /\
    resp_risk resp = Some a /\
    window_used a = resp_window_used resp.
Proof.
  intros Ha Hl Hnew step stored.
  assert (Estep : step =
                  (ret {| created_id := new_id; created_recorded_at := new_ts |},
                   Serving (table ++ [inserted_row payload new_id new_ts]))).
  { unfold step, create_telemetry.
    destruct (in_asset_id payload) eqn:E; [congruence | reflexivity]. }
  rewrite Estep. cbn [fst snd].
  split; [reflexivity|]. split; [reflexivity|].
  set (row := inserted_row payload new_id new_ts).
  destruct (get_latest_telemetry_ok (table ++ [row]) (in_asset_id payload)
              limit Ha Hl) as (risk & Hr & Hg).
  assert (Hstored : Forall (fun r => row_recorded_at r < row_recorded_at row)
                           stored).
  { apply Forall_forall. intros r Hin. unfold stored in Hin.
    apply filter_In in Hin. destruct Hin as (Hin & He).
    rewrite Forall_forall in Hnew.
    apply (Hnew r Hin), String.eqb_eq, He. }
  destruct (newest_row_is_head stored
              (order_by_recorded_at_desc (stored ++ [row])) row
              (order_by_permutes _) (order_by_sorts _) Hstored)
    as (l' & El & Pl).
  assert (Esel : select_latest (table ++ [row]) (in_asset_id payload) limit =
                 row :: firstn (Z.to_nat limit - 1) l').
  { unfold select_latest, row. rewrite filter_inserted_same.
    fold row stored. rewrite El.
    replace (Z.to_nat limit) with (S (Z.to_nat limit - 1)) at 1 by lia.
    reflexivity. }
  rewrite Esel in Hr, Hg. cbn [map] in Hr, Hg.
  rewrite compute_risk_nonempty in Hr by discriminate.
  eexists. exists (map reading_of_row (firstn (Z.to_nat limit - 1) l')).
  exists (assessment (reading_of_row row ::
                      map reading_of_row (firstn (Z.to_nat limit - 1) l'))).
  split; [exact Hg|].
  cbn [resp_readings resp_window_used resp_risk].
  split; [reflexivity|].
  assert (Hw : len (reading_of_row row ::
                    map reading_of_row (firstn (Z.to_nat limit - 1) l')) =
               Z.min limit (len stored + 1)).
  { unfold len. cbn [List.length].
    rewrite length_map, length_firstn, <- (Permutation_length Pl). lia. }
  split; [exact Hw|].
  split; [unfold ret in Hr; congruence|].
  reflexivity.
Qed.

Lemma create_then_latest_witness :
  let step := create_telemetry (Serving table_two_rows) payload_sample 4 1020 in
  exists resp a,
    get_latest_telemetry (alg := LeftToRight) (H := insertion_order)
      (snd step) "aircraft-C130-017" 2 = ret resp /\
    map id (resp_readings resp) = [4; 3] /\
    resp_window_used resp = 2 /\
    resp_risk resp = Some a.
Proof.
  intros step.
  destruct (create_then_latest (alg := LeftToRight) (H0 := insertion_order_laws)
              table_two_rows payload_sample 4 1020 2)
    as (_ & _ & resp & older & a & Hg & _ & Hw & Hr & _).
  - discriminate.
  - lia.
  - repeat constructor; simpl; intros _; lia.
  - exists resp, a. split; [exact Hg|].
    split; [|split; [rewrite Hw; reflexivity | exact Hr]].
    vm_compute in Hg. unfold ret in Hg. injection Hg as Hg.
    rewrite <- Hg. reflexivity.
Defined.






(* ===================================================================== *)
(** ** Growing the window, and finite stores *)
(* ===================================================================== *)

Lemma firstn_prefix {A : Type} (k d : nat) (l : list A) :
  firstn (k + d) l = firstn k l ++ firstn d (skipn k l).
Proof.
  revert l. induction k as [|k IH]; intros l; [reflexivity|].
  destruct l as [|x l]; [destruct d; reflexivity|].
  simpl. rewrite IH. reflexivity.
Qed.

(** X14: asking for more keeps what was already returned, when timestamps
    are distinct.  The two requests are two statements, each with its own
    tie-break.  If no two stored rows of the asset share a [recorded_at],
    then for two valid limits [limit <= limit'] the readings returned for
    [limit] are the first readings returned for [limit'], in the same
    order, and the larger request only appends strictly older readings.
    With equal timestamps this can fail: on three rows stored at the same
    instant one statement returns row 1 for [limit = 1] while another
    returns rows 3, 2, 1 for [limit = 5]. *)
Theorem larger_limit_extends_window {alg : SumAlgorithm} (O1 O2 : OrderBy)
    (L1 : @OrderByLaws O1) (L2 : @OrderByLaws O2)
    (table : list Row) (asset : string) (limit limit' : Z) :
  asset <> ""%string -> 1 <= limit -> limit <= limit' -> limit' <= 50 ->
  NoDup (map row_recorded_at
           (filter (fun r => String.eqb (row_asset_id r) asset) table)) ->
  (exists resp resp' older,
     get_latest_telemetry (H := O1) (Serving table) asset limit = ret resp /\
     get_latest_telemetry (H := O2) (Serving table) asset limit' = ret resp' /\
     resp_readings resp' = resp_readings resp ++ older /\
     resp_window_used resp <= resp_window_used resp' /\
     (forall r o, In r (resp_readings resp) -> In o older ->
                  recorded_at o < recorded_at r)) /\
  exists r1 r5,
    get_latest_telemetry (H := insertion_order)
      (Serving table_same_instant) "aircraft-C130-017" 1 = ret r1 /\
    get_latest_telemetry (H := reverse_tie_order)
      (Serving table_same_instant) "aircraft-C130-017" 5 = ret r5 /\
    map id (resp_readings r1) = [1] /\
    map id (resp_readings r5) = [3; 2; 1].
Proof.
  intros Ha H1 H2 H3 ND. split.
  - destruct (get_latest_telemetry_ok (H := O1) table asset limit Ha
                ltac:(lia)) as (risk & _ & Hg).
    destruct (get_latest_telemetry_ok (H := O2) table asset limit' Ha
                ltac:(lia)) as (risk' & _ & Hg').
    set (stored := filter (fun r => String.eqb (row_asset_id r) asset) table)
      in *.
    set (L := order_by_recorded_at_desc (OrderBy := O1) stored).
    pose proof (@order_by_permutes O1 L1 stored) as P1.
    pose proof (@order_by_permutes O2 L2 stored) as P2.
    pose proof (@order_by_sorts O1 L1 stored) as S1.
    assert (NL : NoDup (map row_recorded_at L))
      by (apply (Permutation_NoDup (Permutation_map row_recorded_at P1)), ND).
    assert (EL : order_by_recorded_at_desc (OrderBy := O2) stored = L).
    { symmetry. apply recorded_at_desc_unique.
      - exact S1.
      - apply (@order_by_sorts O2 L2).
      - eapply perm_trans; [apply Permutation_sym, P1 | exact P2].
      - exact NL. }
    set (k := Z.to_nat limit). set (d := Z.to_nat (limit' - limit)).
    assert (E : select_latest (H := O2) table asset limit' =
                select_latest (H := O1) table asset limit ++
                firstn d (skipn k L)).
    { unfold select_latest. fold stored. rewrite EL. fold L k.
      replace (Z.to_nat limit') with (k + d)%nat by (unfold k, d; lia).
      apply firstn_prefix. }
    eexists. eexists. exists (map reading_of_row (firstn d (skipn k L))).
    split; [exact Hg|]. split; [exact Hg'|].
    cbn [resp_readings resp_window_used].
    split; [rewrite E, map_app; reflexivity|].
    split.
    + rewrite E, map_app. unfold len. rewrite length_app. lia.
    + intros r o Hr Ho.
      apply in_map_iff in Hr. destruct Hr as (x & <- & Hx).
      apply in_map_iff in Ho. destruct Ho as (y & <- & Hy).
      cbn [reading_of_row recorded_at].
      unfold select_latest in Hx. fold stored L k in Hx.
      assert (Hy' : In y (skipn k L)).
      { rewrite <- (firstn_skipn d (skipn k L)). apply in_or_app. left.
        exact Hy. }
      assert (Hle : row_recorded_at y <= row_recorded_at x).
      { apply (recorded_at_desc_app (firstn k L) (skipn k L));
          [rewrite firstn_skipn; exact S1 | exact Hx | exact Hy']. }
      assert (Hne : row_recorded_at y <> row_recorded_at x).
      { intros Eq. rewrite <- (firstn_skipn k L), map_app in NL.
        apply NoDup_app_remove_l in NL as NR.
        pose proof (in_map row_recorded_at _ _ Hx) as Ix.
        pose proof (in_map row_recorded_at _ _ Hy') as Iy.
        rewrite Eq in Iy. clear - NL Ix Iy.
        induction (map row_recorded_at (firstn k L)) as [|z zs IH];
          [contradiction|].
        simpl in NL. inversion NL as [|? ? Hnin NL']; subst.
        destruct Ix as [->|Ix]; [|apply IH; assumption].
        apply Hnin, in_or_app. right. exact Iy. }
      lia.
  - clear. destruct alg.
    + eexists. eexists.
      split; [vm_compute; reflexivity|].
      split; [vm_compute; reflexivity|].
      split; reflexivity.
    + eexists. eexists.
      split; [vm_compute; reflexivity|].
      split; [vm_compute; reflexivity|].
      split; reflexivity.
Qed.

Lemma larger_limit_extends_window_witness :
  exists resp resp' older,
    get_latest_telemetry (alg := LeftToRight) (H := insertion_order)
      (Serving table_two_rows) "aircraft-C130-017" 1 = ret resp /\
    get_latest_telemetry (alg := LeftToRight) (H := reverse_tie_order)
      (Serving table_two_rows) "aircraft-C130-017" 5 = ret resp' /\
    resp_readings resp' = resp_readings resp ++ older /\
    map id (resp_readings resp) = [3] /\
    map id (resp_readings resp') = [3; 1].
Proof.
  destruct (larger_limit_extends_window (alg := LeftToRight)
              insertion_order reverse_tie_order
              insertion_order_laws reverse_tie_order_laws
              table_two_rows "aircraft-C130-017" 1 5)
    as ((resp & resp' & older & Hg & Hg' & Happ & _) & _).
  - discriminate.
  - lia.
  - lia.
  - lia.
  - vm_compute. repeat constructor; simpl; intuition discriminate.
  - exists resp, resp', older.
    split; [exact Hg|]. split; [exact Hg'|]. split; [exact Happ|].
    vm_compute in Hg, Hg'. unfold ret in Hg, Hg'.
    injection Hg as Hg. injection Hg' as Hg'.
    rewrite <- Hg, <- Hg'. split; reflexivity.
Defined.

(** X15: A store of finite measurements is never reported with a NaN.  For a
    valid request, if every stored row of the asset holds finite floats,
    then whenever the response carries an assessment none of its three
    reported averages is NaN: the limit of at most 50 keeps the window
    within the lengths for which the means of finite values are numbers. *)
Theorem finite_store_reports_no_nan {alg : SumAlgorithm} `{OrderByLaws}
    (table : list Row) (asset : string) (limit : Z) :
  asset <> ""%string -> 1 <= limit <= 50 ->
  Forall (fun r => row_asset_id r = asset ->
                   finite_reading (reading_of_row r) = true) table ->
  exists resp,
    get_latest_telemetry (Serving table) asset limit = ret resp /\
    forallb finite_reading (resp_readings resp) = true /\
    (forall a, resp_risk resp = Some a ->
       PyFloat.is_nan (avg_temperature_c (averages a)) = false /\
       PyFloat.is_nan (avg_vibration_rms (averages a)) = false /\
       PyFloat.is_nan (avg_pressure_psi (averages a)) = false).
Proof.
  intros Ha Hl Hfin.
  destruct (get_latest_telemetry_ok table asset limit Ha Hl)
    as (risk & Hr & Hg).
  eexists. split; [exact Hg|].
  cbn [resp_readings resp_risk].
  set (readings := map reading_of_row (select_latest table asset limit)) in *.
  assert (Hall : forallb finite_reading readings = true).
  { apply forallb_forall. intros x Hx. unfold readings in Hx.
    apply in_map_iff in Hx. destruct Hx as (r & <- & Hin).
    unfold select_latest in Hin.
    assert (Hs : In r (filter (fun r => String.eqb (row_asset_id r) asset)
                              table)).
    { apply (Permutation_in r (Permutation_sym (order_by_permutes _))).
      rewrite <- (firstn_skipn (Z.to_nat limit)). apply in_or_app. left.
      exact Hin. }
    apply filter_In in Hs. destruct Hs as (Ht & He).
    rewrite Forall_forall in Hfin.
    apply (Hfin r Ht), String.eqb_eq, He. }
  split; [exact Hall|].
  intros a Ea. subst risk.
  assert (Hlen : (List.length readings <= 50)%nat).
  { pose proof (select_latest_len table asset limit ltac:(lia)) as Hn.
    rewrite <- (len_map reading_of_row) in Hn. fold readings in Hn.
    unfold len in Hn. lia. }
  destruct readings as [|r rs] eqn:E; [discriminate Hr|].
  rewrite compute_risk_nonempty in Hr by discriminate.
  assert (Ea : a = assessment (r :: rs)) by (unfold ret in Hr; congruence).
  assert (Hn : (1 <= List.length (r :: rs) <= 50)%nat)
    by (simpl in *; lia).
  destruct (finite_reading_metrics (r :: rs) Hall) as (Ft & Fv & Fp).
  rewrite Ea.
  cbn [assessment averages avg_temperature_c avg_vibration_rms
       avg_pressure_psi].
  repeat split; apply round2_not_nan, average_finite_not_nan; assumption.
Qed.

Lemma finite_store_reports_no_nan_witness :
  exists resp a,
    get_latest_telemetry (alg := LeftToRight) (H := insertion_order)
      (Serving table_two_rows) "aircraft-C130-017" 5 =
      ret resp /\
    resp_risk resp = Some a /\
    PyFloat.is_nan (avg_temperature_c (averages a)) = false.
Proof.
  destruct (finite_store_reports_no_nan (alg := LeftToRight) (H0 := insertion_order_laws)
              table_two_rows "aircraft-C130-017" 5)
    as (resp & Hg & _ & Hnan).
  - discriminate.
  - lia.
  - repeat constructor; intros _; vm_compute; reflexivity.
  - assert (Hr : exists a, resp_risk resp = Some a).
    { vm_compute in Hg. unfold ret in Hg. injection Hg as Hg.
      rewrite <- Hg. eexists. reflexivity. }
    destruct Hr as (a & Hr).
    exists resp, a. split; [exact Hg|]. split; [exact Hr|].
    apply (Hnan a Hr).
Defined.
